(** * learncomma: the DeepWiki proxy (server/index.js) and its React view (App.jsx)

    A shallow embedding of the two source files.  JavaScript values are an
    inductive type with the language's coercions written out; the proxy's
    handlers thread the module-level state (the cached client promise) and a
    trace of the calls they make to their collaborators; the view is a set
    of transitions on the component state, an asynchronous action being
    split at its [await] into a start and a finish transition. *)

From Stdlib Require Import String Ascii List ZArith Lia Bool DecimalString.
Import ListNotations.
Open Scope string_scope.
Set Warnings "-register-all".

(** ** JavaScript values and the operators the sources use *)

Module Js.

(** Strings are sequences of code units below 256; numbers are the
    integers (only their zero test and their printing are consumed). *)
Inductive JsVal : Type :=
| JUndefined
| JNull
| JBool (b : bool)
| JNum (z : Z)
| JStr (s : string)
| JArr (items : list JsVal)
| JObj (fields : list (string * JsVal)).

(** ToBoolean: what [!v], [a || b] and [if (v)] test. *)
Definition truthy (v : JsVal) : bool :=
  match v with
  | JUndefined | JNull => false
  | JBool b => b
  | JNum z => negb (z =? 0)%Z
  | JStr s => negb (s =? "")
  | JArr _ | JObj _ => true
  end.

Definition nullish (v : JsVal) : bool :=
  match v with
  | JUndefined | JNull => true
  | _ => false
  end.

(** [a || b] and [a ?? b]. *)
Definition js_or (a b : JsVal) : JsVal := if truthy a then a else b.
Definition js_coalesce (a b : JsVal) : JsVal := if nullish a then b else a.

Fixpoint lookup (k : string) (fields : list (string * JsVal)) : JsVal :=
  match fields with
  | [] => JUndefined
  | (k', v) :: rest => if k =? k' then v else lookup k rest
  end.

(** Computations that may throw; [E] is the type of thrown values. *)
Inductive Exc (E A : Type) : Type :=
| Ok (a : A)
| Throw (e : E).
Arguments Ok {E A} a.
Arguments Throw {E A} e.

Definition bind {E A B} (m : Exc E A) (k : A -> Exc E B) : Exc E B :=
  match m with
  | Ok a => k a
  | Throw e => Throw e
  end.

(** [try { body } catch (e) { handler e }] for a handler that returns. *)
Definition try_catch {E A} (body : Exc E A) (handler : E -> A) : A :=
  match body with
  | Ok a => a
  | Throw e => handler e
  end.

(** An [Error] instance, as far as the sources read it. *)
Definition mkError (msg : string) : JsVal := JObj [("message", JStr msg)].

(** [v.k]: a TypeError on [undefined] and [null], the field of an object,
    [undefined] on the other values (none of the names read by the
    sources is a built-in property of a string, number or array). *)
Definition prop_error (k : string) (v : JsVal) : string :=
  "Cannot read properties of "
    ++ (match v with JNull => "null" | _ => "undefined" end)
    ++ " (reading '" ++ k ++ "')".

Definition get_prop (v : JsVal) (k : string) : Exc string JsVal :=
  match v with
  | JUndefined | JNull => Throw (prop_error k v)
  | JObj fields => Ok (lookup k fields)
  | _ => Ok JUndefined
  end.

(** [v?.k] *)
Definition opt_get (v : JsVal) (k : string) : JsVal :=
  match v with
  | JObj fields => lookup k fields
  | _ => JUndefined
  end.

(** ToString, with [Array.prototype.join]'s treatment of the elements.
    Exact on [undefined], [null], booleans, strings, integers below 10^21
    in magnitude, and objects that have no field named [toString] (and
    arrays of these); beyond that the language prints a number in exponent
    form and throws a TypeError on an object whose own [toString] is not a
    function. *)
Fixpoint toString (v : JsVal) : string :=
  match v with
  | JUndefined => "undefined"
  | JNull => "null"
  | JBool true => "true"
  | JBool false => "false"
  | JNum z => NilZero.string_of_int (Z.to_int z)
  | JStr s => s
  | JArr items =>
      (fix commas (l : list JsVal) : string :=
         match l with
         | [] => ""
         | x :: rest =>
             (match x with
              | JUndefined | JNull => ""
              | _ => toString x
              end)
               ++ (match rest with
                   | [] => ""
                   | _ :: _ => "," ++ commas rest
                   end)
         end) items
  | JObj _ => "[object Object]"
  end.

Definition join_item (v : JsVal) : string :=
  if nullish v then "" else toString v.

(** [items.join(sep)] *)
Fixpoint join (sep : string) (items : list JsVal) : string :=
  match items with
  | [] => ""
  | x :: rest =>
      join_item x ++ (match rest with
                      | [] => ""
                      | _ :: _ => sep ++ join sep rest
                      end)
  end.

(** [v === 'lit'] *)
Definition strict_eq_str (v : JsVal) (lit : string) : bool :=
  match v with
  | JStr s => s =? lit
  | _ => false
  end.

(** White space and line terminators, among the code units below 256. *)
Definition is_ws (c : ascii) : bool :=
  let n := nat_of_ascii c in
  ((n =? 9) || (n =? 10) || (n =? 11) || (n =? 12) || (n =? 13)
   || (n =? 32) || (n =? 160))%nat.

Fixpoint trimStart (s : string) : string :=
  match s with
  | EmptyString => EmptyString
  | String c rest => if is_ws c then trimStart rest else s
  end.

Fixpoint trimEnd (s : string) : string :=
  match s with
  | EmptyString => EmptyString
  | String c rest =>
      let rest' := trimEnd rest in
      if is_ws c && (rest' =? "") then EmptyString else String c rest'
  end.

(** [s.trim()] *)
Definition trim (s : string) : string := trimEnd (trimStart s).

(** Every code unit of the string is white space. *)
Fixpoint all_ws (s : string) : bool :=
  match s with
  | EmptyString => true
  | String c rest => is_ws c && all_ws rest
  end.

(** A string, or a value that [||] passes over. *)
Definition string_or_falsy (v : JsVal) : bool :=
  match v with
  | JStr _ => true
  | _ => negb (truthy v)
  end.

(** What [JSON.parse (JSON.stringify v)] gives back for an object or an
    array: fields holding [undefined] are dropped, [undefined] inside an
    array becomes [null]. *)
Fixpoint json_roundtrip (v : JsVal) : JsVal :=
  match v with
  | JArr items =>
      JArr (map (fun x => match x with
                          | JUndefined => JNull
                          | _ => json_roundtrip x
                          end) items)
  | JObj fields =>
      JObj ((fix go (l : list (string * JsVal)) : list (string * JsVal) :=
               match l with
               | [] => []
               | (k, x) :: rest =>
                   match x with
                   | JUndefined => go rest
                   | _ => (k, json_roundtrip x) :: go rest
                   end
               end) fields)
  | _ => v
  end.

End Js.

Module ExcNotations.
Notation "'let!' x ':=' m 'in' k" := (Js.bind m (fun x => k))
  (at level 10, x name, m at level 100, k at level 200).
End ExcNotations.

(** ** The proxy: server/index.js *)

Module Server.
Import Js.

Definition SSE_URL : string := "https://mcp.deepwiki.com/sse".

Definition sse_endpoint : JsVal :=
  JObj [("type", JStr "sse"); ("url", JStr SSE_URL)].

Definition client_config : JsVal :=
  JObj [("name", JStr "deepwiki-react-proxy"); ("transport", sse_endpoint)].

(** How a promise settles.  A promise that never settles is no value of
    this type: the handler that awaits it sends nothing and does not
    return ([Loop] below has it stay suspended). *)
Inductive Outcome (A : Type) : Type :=
| Resolved (a : A)
| Rejected (err : JsVal).
Arguments Resolved {A} a.
Arguments Rejected {A} err.

(** The client is an opaque capability: a handle. *)
Definition Client : Type := nat.

(** The argument of [client.tool.invoke]. *)
Record ToolCall : Type := {
  server : JsVal;
  toolName : string;
  arguments : JsVal
}.

(** A promise object: its identity and the way it settles. *)
Record Promise : Type := {
  prom_id : nat;
  prom_outcome : Outcome Client
}.

(** Calls made to the collaborators, in order. *)
Inductive Event : Type :=
| EvCreate (config : JsVal)
| EvInvoke (c : Client) (call : ToolCall)
| EvLog (label : string) (err : JsVal).

(** The remote side: how the n-th constructed client connects and what
    the n-th invocation gives. *)
Record Remote : Type := {
  connect : nat -> Outcome Client;
  invoke : nat -> Client -> ToolCall -> Outcome JsVal
}.

(** Module-level state ([let mcpClientPromise = null]) and the trace. *)
Record World : Type := {
  mcpClientPromise : option Promise;
  trace : list Event
}.

Definition initial : World := {| mcpClientPromise := None; trace := [] |}.

Record Response : Type := {
  status : nat;
  body : JsVal
}.

(** What a handler works on: the world and what [res] has sent so far. *)
Record Ctx : Type := {
  world : World;
  sent : list Response
}.

Definition is_create (e : Event) : bool :=
  match e with EvCreate _ => true | _ => false end.
Definition is_invoke (e : Event) : bool :=
  match e with EvInvoke _ _ => true | _ => false end.

Definition creations (w : World) : nat := length (filter is_create (trace w)).
Definition invocations (w : World) : nat := length (filter is_invoke (trace w)).

Definition emit (e : Event) (w : World) : World :=
  {| mcpClientPromise := mcpClientPromise w; trace := trace w ++ [e] |}.

(** State and exceptions: a handler's computation. *)
Definition M (A : Type) : Type := Ctx -> Exc JsVal A * Ctx.

Definition ret {A} (a : A) : M A := fun c => (Ok a, c).
Definition throw {A} (e : JsVal) : M A := fun c => (Throw e, c).
Definition bindM {A B} (m : M A) (k : A -> M B) : M B :=
  fun c => match m c with
           | (Ok a, c') => k a c'
           | (Throw e, c') => (Throw e, c')
           end.
Definition try_catchM {A} (body : M A) (handler : JsVal -> M A) : M A :=
  fun c => match body c with
           | (Ok a, c') => (Ok a, c')
           | (Throw e, c') => handler e c'
           end.

Notation "x <- m ;; k" := (bindM m (fun x => k))
  (at level 61, m at next level, right associativity).
Notation "m ;; k" := (bindM m (fun _ => k))
  (at level 61, right associativity).

(** [await p] *)
Definition await {A} (o : Outcome A) : M A :=
  match o with
  | Resolved a => ret a
  | Rejected e => throw e
  end.

(** [res.status(code).json(v)]; [res.json(v)] is the case [code = 200]. *)
Definition res_json (code : nat) (v : JsVal) : M unit :=
  fun c => (Ok tt, {| world := world c;
                      sent := sent c ++ [{| status := code; body := v |}] |}).

Definition console_error (label : string) (err : JsVal) : M unit :=
  fun c => (Ok tt, {| world := emit (EvLog label err) (world c); sent := sent c |}).

(** [const { a, b } = v]: a TypeError when [v] is [undefined] or [null]. *)
Definition destructure_error (what : string) (first : string) (v : JsVal) : JsVal :=
  mkError ("Cannot destructure property '" ++ first ++ "' of '"
             ++ what ++ "' as it is "
             ++ (match v with JNull => "null" | _ => "undefined" end)
             ++ ".").

Definition destructurable (what : string) (first : string) (v : JsVal) : M unit :=
  if nullish v then throw (destructure_error what first v) else ret tt.

Section WithRemote.
Variable env : Remote.

Definition createMcpClient (config : JsVal) : M Promise :=
  fun c =>
    let n := creations (world c) in
    (Ok {| prom_id := n; prom_outcome := connect env n |},
     {| world := emit (EvCreate config) (world c); sent := sent c |}).

Definition set_mcpClientPromise (p : Promise) : M unit :=
  fun c => (Ok tt, {| world := {| mcpClientPromise := Some p;
                                   trace := trace (world c) |};
                      sent := sent c |}).

(** [async function getMcpClient()]: the caller awaits what it returns,
    which settles as the cached promise does. *)
Definition getMcpClient : M Promise :=
  fun c =>
    match mcpClientPromise (world c) with
    | None =>
        (p <- createMcpClient client_config ;;
         set_mcpClientPromise p ;;
         ret p) c
    | Some p => ret p c
    end.

(** [client.tool.invoke(call)] awaited. *)
Definition tool_invoke (client : Client) (call : ToolCall) : M JsVal :=
  fun c =>
    let n := invocations (world c) in
    await (invoke env n client call)
          {| world := emit (EvInvoke client call) (world c); sent := sent c |}.

Definition failure_envelope (err : JsVal) : JsVal :=
  JObj [("ok", JBool false);
        ("error", js_or (opt_get err "message") (JStr "unknown error"))].

Definition success_envelope (result : JsVal) : JsVal :=
  JObj [("ok", JBool true);
        ("data", js_coalesce (opt_get result "content") (JArr []))].

Record Request : Type := {
  req_path : string;
  req_query : list (string * JsVal);
  req_body : JsVal
}.

(** [app.get('/api/structure', ...)] *)
Definition structure_handler (req : Request) : M unit :=
  try_catchM
    (let owner := lookup "owner" (req_query req) in
     let repo := lookup "repo" (req_query req) in
     if negb (truthy owner) || negb (truthy repo)
     then res_json 400 (JObj [("error", JStr "owner and repo are required")])
     else
       p <- getMcpClient ;;
       client <- await (prom_outcome p) ;;
       result <- tool_invoke client
                   {| server := sse_endpoint;
                      toolName := "read_wiki_structure";
                      arguments := JObj [("owner", owner); ("repo", repo)] |} ;;
       res_json 200 (success_envelope result))
    (fun err =>
       console_error "structure error" err ;;
       res_json 500 (failure_envelope err)).

(** [app.post('/api/ask', ...)] *)
Definition ask_handler (req : Request) : M unit :=
  try_catchM
    (destructurable "req.body" "owner" (req_body req) ;;
     let owner := opt_get (req_body req) "owner" in
     let repo := opt_get (req_body req) "repo" in
     let question := opt_get (req_body req) "question" in
     if negb (truthy owner) || negb (truthy repo) || negb (truthy question)
     then res_json 400 (JObj [("error", JStr "owner, repo, question are required")])
     else
       p <- getMcpClient ;;
       client <- await (prom_outcome p) ;;
       result <- tool_invoke client
                   {| server := sse_endpoint;
                      toolName := "ask_question";
                      arguments := JObj [("owner", owner); ("repo", repo);
                                         ("question", question)] |} ;;
       res_json 200 (success_envelope result))
    (fun err =>
       console_error "ask error" err ;;
       res_json 500 (failure_envelope err)).

Inductive Method : Type := GET | POST.

(** What became of one request: the responses a handler sent and the
    fault it let escape, or no registered route. *)
Inductive Served : Type :=
| Routed (responses : list Response) (fault : option JsVal)
| NoRoute.

Definition run_handler (h : M unit) (w : World) : Served * World :=
  match h {| world := w; sent := [] |} with
  | (Ok _, c) => (Routed (sent c) None, world c)
  | (Throw e, c) => (Routed (sent c) (Some e), world c)
  end.

(** The routes registered on [app], in order, for a path written as it
    was registered and the two methods the source registers.  (The
    framework's matching is laxer: it ignores letter case and one trailing
    slash, and serves HEAD from the GET route.) *)
Definition app (m : Method) (req : Request) (w : World) : Served * World :=
  match m with
  | GET =>
      if req_path req =? "/api/structure"
      then run_handler (structure_handler req) w
      else (NoRoute, w)
  | POST =>
      if req_path req =? "/api/ask"
      then run_handler (ask_handler req) w
      else (NoRoute, w)
  end.

(** Requests served one after the other. *)
Fixpoint serve (reqs : list (Method * Request)) (w : World)
  : list Served * World :=
  match reqs with
  | [] => ([], w)
  | (m, r) :: rest =>
      let (s, w1) := app m r w in
      let (ss, w2) := serve rest w1 in
      (s :: ss, w2)
  end.

(** The promise [getMcpClient] hands out in world [w], and the world it
    leaves. *)
Definition client_promise (w : World) : Promise :=
  match mcpClientPromise w with
  | Some p => p
  | None => {| prom_id := creations w; prom_outcome := connect env (creations w) |}
  end.

Definition connected (w : World) : World :=
  match mcpClientPromise w with
  | Some _ => w
  | None => {| mcpClientPromise := Some (client_promise w);
               trace := trace w ++ [EvCreate client_config] |}
  end.

(** The promise of the first constructor call. *)
Definition first_promise : Promise :=
  {| prom_id := 0; prom_outcome := connect env 0 |}.

(** The constructor has run as often as the cached promise says. *)
Definition singleton (w : World) : Prop :=
  match mcpClientPromise w with
  | None => creations w = 0
  | Some p => creations w = 1 /\ p = first_promise
  end.

(** The tail of both handlers, from [getMcpClient] on, under the [catch]. *)
Definition remote_part (label : string) (call : ToolCall) : M unit :=
  try_catchM
    (p <- getMcpClient ;;
     client <- await (prom_outcome p) ;;
     result <- tool_invoke client call ;;
     res_json 200 (success_envelope result))
    (fun err =>
       console_error label err ;;
       res_json 500 (failure_envelope err)).

Definition bad_request (msg : string) : Response :=
  {| status := 400; body := JObj [("error", JStr msg)] |}.

Definition server_error (err : JsVal) : Response :=
  {| status := 500; body := failure_envelope err |}.

Definition success (result : JsVal) : Response :=
  {| status := 200; body := success_envelope result |}.

(** What [remote_part] comes to, read off the settled promises. *)
Definition after_remote (label : string) (call : ToolCall) (w : World)
  : Served * World :=
  let w1 := connected w in
  match prom_outcome (client_promise w) with
  | Rejected err =>
      (Routed [server_error err] None, emit (EvLog label err) w1)
  | Resolved c =>
      let w2 := emit (EvInvoke c call) w1 in
      match invoke env (invocations w) c call with
      | Resolved result => (Routed [success result] None, w2)
      | Rejected err =>
          (Routed [server_error err] None, emit (EvLog label err) w2)
      end
  end.

End WithRemote.

(** A remote side whose client connects as [c] and whose every invocation
    settles as [o]. *)
Definition steady (c : Client) (o : Outcome JsVal) : Remote :=
  {| connect := fun _ => Resolved c; invoke := fun _ _ _ => o |}.

Definition structure_call (owner repo : JsVal) : ToolCall :=
  {| server := sse_endpoint; toolName := "read_wiki_structure";
     arguments := JObj [("owner", owner); ("repo", repo)] |}.

Definition ask_call (owner repo question : JsVal) : ToolCall :=
  {| server := sse_endpoint; toolName := "ask_question";
     arguments := JObj [("owner", owner); ("repo", repo); ("question", question)] |}.

Definition structure_request (q : list (string * JsVal)) : Request :=
  {| req_path := "/api/structure"; req_query := q; req_body := JObj [] |}.

Definition ask_request (b : JsVal) : Request :=
  {| req_path := "/api/ask"; req_query := []; req_body := b |}.

(** The two operations the proxy registers, with what a request carries:
    the query of a GET, the parsed body of a POST. *)
Inductive Operation : Type :=
| OpStructure (query : list (string * JsVal))
| OpAsk (json : JsVal).

Definition op_run (env : Remote) (op : Operation) (w : World) : Served * World :=
  match op with
  | OpStructure q => app env GET (structure_request q) w
  | OpAsk b => app env POST (ask_request b) w
  end.

(** The handlers' tests [!owner || !repo] and [!owner || !repo || !question],
    negated. *)
Definition op_valid (op : Operation) : bool :=
  match op with
  | OpStructure q => truthy (lookup "owner" q) && truthy (lookup "repo" q)
  | OpAsk b =>
      truthy (opt_get b "owner") && truthy (opt_get b "repo")
      && truthy (opt_get b "question")
  end.

(** The request carries something the handler can destructure: a GET
    always has a query object; the body of a POST is what the JSON
    middleware left in [req.body], an object or an array when it parsed
    one. *)
Definition op_parsed (op : Operation) : bool :=
  match op with
  | OpStructure _ => true
  | OpAsk b => negb (nullish b)
  end.

Definition op_call (op : Operation) : ToolCall :=
  match op with
  | OpStructure q => structure_call (lookup "owner" q) (lookup "repo" q)
  | OpAsk b => ask_call (opt_get b "owner") (opt_get b "repo") (opt_get b "question")
  end.

Definition op_label (op : Operation) : string :=
  match op with
  | OpStructure _ => "structure error"
  | OpAsk _ => "ask error"
  end.

Definition op_required (op : Operation) : string :=
  match op with
  | OpStructure _ => "owner and repo are required"
  | OpAsk _ => "owner, repo, question are required"
  end.

(** The request of an operation, as [app] receives it. *)
Definition op_request (op : Operation) : Method * Request :=
  match op with
  | OpStructure q => (GET, structure_request q)
  | OpAsk b => (POST, ask_request b)
  end.

Definition is_log (e : Event) : bool :=
  match e with EvLog _ _ => true | _ => false end.

Definition count (f : Event -> bool) (evs : list Event) : nat :=
  length (filter f evs).

(** The events one pass through the remote part appends. *)
Definition remote_events (env : Remote) (label : string) (call : ToolCall)
  (w : World) : list Event :=
  (match mcpClientPromise w with
   | Some _ => []
   | None => [EvCreate client_config]
   end
   ++ match prom_outcome (client_promise env w) with
      | Rejected err => [EvLog label err]
      | Resolved c =>
          EvInvoke c call
            :: match invoke env (invocations w) c call with
               | Resolved _ => []
               | Rejected err => [EvLog label err]
               end
      end)%list.

Definition answered_500 (s : Served) : bool :=
  match s with
  | Routed [r] _ => (status r =? 500)%nat
  | _ => false
  end.

(** The remote invocation of [op] in world [w] settles as [o]: the client
    promise resolves and the invocation that comes next gives [o]. *)
Definition invocation_settles (env : Remote) (op : Operation) (w : World)
  (o : Outcome JsVal) : Prop :=
  exists c, prom_outcome (client_promise env w) = Resolved c
            /\ invoke env (invocations w) c (op_call op) = o.

End Server.


(** ** The view: client/src/App.jsx *)

Module Ui.
Import Js ExcNotations.

Definition API_BASE : string := "http://localhost:5174".

(** The component's [useState] cells. *)
Record State : Type := {
  owner : string;
  repo : string;
  structure : list JsVal;
  selectedTopic : JsVal;
  doc : string;
  question : string;
  answer : string;
  loading : bool;
  error : string
}.

Definition initial : State :=
  {| owner := "facebook"; repo := "react"; structure := [];
     selectedTopic := JStr ""; doc := "";
     question := "How does concurrent rendering work?";
     answer := ""; loading := false; error := "" |}.

Definition with_owner (v : string) (s : State) : State :=
  {| owner := v; repo := repo s; structure := structure s;
     selectedTopic := selectedTopic s; doc := doc s; question := question s;
     answer := answer s; loading := loading s; error := error s |}.
Definition with_repo (v : string) (s : State) : State :=
  {| owner := owner s; repo := v; structure := structure s;
     selectedTopic := selectedTopic s; doc := doc s; question := question s;
     answer := answer s; loading := loading s; error := error s |}.
Definition setStructure (v : list JsVal) (s : State) : State :=
  {| owner := owner s; repo := repo s; structure := v;
     selectedTopic := selectedTopic s; doc := doc s; question := question s;
     answer := answer s; loading := loading s; error := error s |}.
Definition setSelectedTopic (v : JsVal) (s : State) : State :=
  {| owner := owner s; repo := repo s; structure := structure s;
     selectedTopic := v; doc := doc s; question := question s;
     answer := answer s; loading := loading s; error := error s |}.
Definition setDoc (v : string) (s : State) : State :=
  {| owner := owner s; repo := repo s; structure := structure s;
     selectedTopic := selectedTopic s; doc := v; question := question s;
     answer := answer s; loading := loading s; error := error s |}.
Definition setQuestion (v : string) (s : State) : State :=
  {| owner := owner s; repo := repo s; structure := structure s;
     selectedTopic := selectedTopic s; doc := doc s; question := v;
     answer := answer s; loading := loading s; error := error s |}.
Definition setAnswer (v : string) (s : State) : State :=
  {| owner := owner s; repo := repo s; structure := structure s;
     selectedTopic := selectedTopic s; doc := doc s; question := question s;
     answer := v; loading := loading s; error := error s |}.
Definition setLoading (v : bool) (s : State) : State :=
  {| owner := owner s; repo := repo s; structure := structure s;
     selectedTopic := selectedTopic s; doc := doc s; question := question s;
     answer := answer s; loading := v; error := error s |}.
Definition setError (v : string) (s : State) : State :=
  {| owner := owner s; repo := repo s; structure := structure s;
     selectedTopic := selectedTopic s; doc := doc s; question := question s;
     answer := answer s; loading := loading s; error := v |}.

(** [a && b] on strings. *)
Definition and_str (a b : string) : string := if a =? "" then a else b.

(** [useMemo(() => owner.trim() && repo.trim(), [owner, repo])] *)
Definition canQuery (s : State) : string := and_str (trim (owner s)) (trim (repo s)).

Definition can_query (s : State) : bool := negb (canQuery s =? "").

(** A request handed to [fetch]. *)
Inductive Fetch : Type :=
| FetchGet (path : string) (searchParams : list (string * string))
| FetchPost (path : string) (json_body : JsVal).

(** What [await fetch(...)] followed by [await res.json()] gives: a
    rejection with an Error carrying a message, or the parsed body. *)
Inductive FetchResult : Type :=
| Failed (message : string)
| Body (json : JsVal).

Definition await_json (r : FetchResult) : Exc string JsVal :=
  match r with
  | Failed msg => Throw msg
  | Body json => Ok json
  end.

(** [if (!json.ok) throw new Error(json.error || fallback)] *)
Definition check_ok (json : JsVal) (fallback : string) : Exc string unit :=
  let! ok := get_prop json "ok" in
  if truthy ok then Ok tt
  else
    let! err := get_prop json "error" in
    Throw (toString (js_or err (JStr fallback))).

(** The separator of [.join('\n\n')]: two line feeds. *)
Definition blank_line : string := String "010" (String "010" EmptyString).

(** The engine's message for calling [.filter] on a value without one. *)
Definition no_filter_msg : string := "(intermediate value).filter is not a function".

(** [.filter((b) => b.type === 'text')] *)
Fixpoint filter_text (items : list JsVal) : Exc string (list JsVal) :=
  match items with
  | [] => Ok []
  | b :: rest =>
      let! t := get_prop b "type" in
      let! kept := filter_text rest in
      Ok (if strict_eq_str t "text" then b :: kept else kept)
  end.

(** [.map((b) => b.text)] *)
Fixpoint map_text (items : list JsVal) : Exc string (list JsVal) :=
  match items with
  | [] => Ok []
  | b :: rest =>
      let! t := get_prop b "text" in
      let! ts := map_text rest in
      Ok (t :: ts)
  end.

(** [(json.data || []).filter(...).map(...)], written out three times in
    the source. *)
Definition text_items (json : JsVal) : Exc string (list JsVal) :=
  let! data := get_prop json "data" in
  match js_or data (JArr []) with
  | JArr items =>
      let! kept := filter_text items in
      map_text kept
  | _ => Throw no_filter_msg
  end.

Definition structure_fetch (s : State) : Fetch :=
  FetchGet "/api/structure" [("owner", owner s); ("repo", repo s)].

(** The effect on [owner, repo, canQuery], up to its [await fetch]. *)
Definition effect_start (s : State) : State * option Fetch :=
  let s := setDoc "" (setSelectedTopic (JStr "") (setStructure [] s)) in
  if negb (can_query s) then (s, None)
  else (setError "" (setLoading true s), Some (structure_fetch s)).

(** The rest of the effect, once the fetch has settled. *)
Definition effect_finish (r : FetchResult) (s : State) : State :=
  setLoading false
    (try_catch
       (let! json := await_json r in
        let! _ := check_ok json "Failed to load structure" in
        let! items := text_items json in
        Ok (setStructure items s))
       (fun msg => setError msg s)).

(** [onChange] of the two inputs: the setter, then the effect when the
    dependency changed. *)
Definition setOwner (v : string) (s : State) : State * option Fetch :=
  if v =? owner s then (s, None) else effect_start (with_owner v s).

Definition setRepo (v : string) (s : State) : State * option Fetch :=
  if v =? repo s then (s, None) else effect_start (with_repo v s).

(** The first render runs the effect too. *)
Definition mount : State * option Fetch := effect_start initial.

Definition contents_fetch (topic : JsVal) (s : State) : Fetch :=
  FetchGet "/api/contents"
           [("owner", owner s); ("repo", repo s); ("topic", toString topic)].

Definition loadTopic_start (topic : JsVal) (s : State) : State * option Fetch :=
  if negb (truthy topic) then (s, None)
  else (setError "" (setLoading true (setDoc "" (setSelectedTopic topic s))),
        Some (contents_fetch topic s)).

Definition loadTopic_finish (r : FetchResult) (s : State) : State :=
  setLoading false
    (try_catch
       (let! json := await_json r in
        let! _ := check_ok json "Failed to load contents" in
        let! items := text_items json in
        Ok (setDoc (join blank_line items) s))
       (fun msg => setError msg s)).

Definition ask_fetch (s : State) : Fetch :=
  FetchPost "/api/ask"
            (JObj [("owner", JStr (owner s)); ("repo", JStr (repo s));
                   ("question", JStr (question s))]).

Definition ask_start (s : State) : State * option Fetch :=
  if negb (can_query s) || (trim (question s) =? "") then (s, None)
  else (setError "" (setLoading true (setAnswer "" s)), Some (ask_fetch s)).

Definition ask_finish (r : FetchResult) (s : State) : State :=
  setLoading false
    (try_catch
       (let! json := await_json r in
        let! _ := check_ok json "ask_question failed" in
        let! items := text_items json in
        Ok (setAnswer (join blank_line items) s))
       (fun msg => setError msg s)).

(** An edit of one of the two identifier inputs. *)
Inductive Edit : Type :=
| EditOwner (v : string)
| EditRepo (v : string).

Definition edit (e : Edit) (s : State) : State * option Fetch :=
  match e with
  | EditOwner v => setOwner v s
  | EditRepo v => setRepo v s
  end.

(** The edit changes the field's value (React skips the render, and the
    effect with it, when it does not). *)
Definition changes (e : Edit) (s : State) : bool :=
  match e with
  | EditOwner v => negb (v =? owner s)
  | EditRepo v => negb (v =? repo s)
  end.

Definition blank (v : string) : bool := trim v =? "".

(** The callback of the views' [.filter]. *)
Definition is_text (b : JsVal) : bool := strict_eq_str (opt_get b "type") "text".

Definition text_block (t : string) : JsVal :=
  JObj [("type", JStr "text"); ("text", JStr t)].



End Ui.


(** ** The wire between the two *)

Module Wire.
Import Js.

(** The request the proxy sees for a [fetch] of the view. *)
Definition to_request (f : Ui.Fetch) : Server.Method * Server.Request :=
  match f with
  | Ui.FetchGet path params =>
      (Server.GET,
       {| Server.req_path := path;
          Server.req_query := map (fun kv => (fst kv, JStr (snd kv))) params;
          Server.req_body := JObj [] |})
  | Ui.FetchPost path json =>
      (Server.POST,
       {| Server.req_path := path;
          Server.req_query := [];
          Server.req_body := json_roundtrip json |})
  end.

(** The engine's message when [res.json()] is handed a page that is no JSON. *)
Definition not_json_msg : string := "Unexpected token '<'".

(** What the view's [await res.json()] gives for what the proxy served:
    the body of the answer whatever its status, and a parse error for the
    page that stands for a missing route.  (No handler of [app] ends without
    an answer; the fetch of such a request would stay pending.) *)
Definition to_fetch_result (s : Server.Served) : Ui.FetchResult :=
  match s with
  | Server.Routed (r :: _) _ => Ui.Body (json_roundtrip (Server.body r))
  | Server.Routed [] _ => Ui.Failed "no response"
  | Server.NoRoute => Ui.Failed not_json_msg
  end.

End Wire.


(** ** The proxy's handlers on the event loop *)

Module Loop.
Import Js Server.

(** Where a handler stands: not yet started, suspended at
    [await getMcpClient()], suspended at [await client.tool.invoke(...)],
    or returned, with what it sent. *)
Inductive Task : Type :=
| Arrived (op : Operation)
| AwaitingClient (op : Operation) (p : Promise)
| AwaitingResult (op : Operation) (o : Outcome JsVal)
| Finished (responses : list Response).

Section WithRemote.
Variable env : Remote.

(** The [catch] block: log, answer 500. *)
Definition caught (op : Operation) (err : JsVal) (w : World) : Task * World :=
  (Finished [server_error err], emit (EvLog (op_label op) err) w).

(** One uninterrupted stretch of a handler, from where it stands to its
    next [await] or to its return. *)
Definition advance (t : Task) (w : World) : Task * World :=
  match t with
  | Arrived op =>
      if negb (op_parsed op)
      then caught op (destructure_error "req.body" "owner"
                        (match op with OpAsk b => b | OpStructure _ => JUndefined end)) w
      else if negb (op_valid op)
      then (Finished [bad_request (op_required op)], w)
      else (AwaitingClient op (client_promise env w), connected env w)
  | AwaitingClient op p =>
      match prom_outcome p with
      | Rejected err => caught op err w
      | Resolved c =>
          (AwaitingResult op (invoke env (invocations w) c (op_call op)),
           emit (EvInvoke c (op_call op)) w)
      end
  | AwaitingResult op o =>
      match o with
      | Resolved result => (Finished [success result], w)
      | Rejected err => caught op err w
      end
  | Finished rs => (Finished rs, w)
  end.

Fixpoint advance_nth (i : nat) (pool : list Task) (w : World) {struct pool}
  : list Task * World :=
  match pool with
  | [] => ([], w)
  | t :: rest =>
      match i with
      | O => let (t', w') := advance t w in (t' :: rest, w')
      | S j => let (rest', w') := advance_nth j rest w in (t :: rest', w')
      end
  end.

(** The loop resumes the handlers in the order [schedule] gives, each for
    one stretch. *)
Fixpoint run (schedule : list nat) (pool : list Task) (w : World)
  : list Task * World :=
  match schedule with
  | [] => (pool, w)
  | i :: rest => let (pool', w') := advance_nth i pool w in run rest pool' w'
  end.

(** A handler run without interruption: three stretches at most. *)
Definition straight (op : Operation) (w : World) : Task * World :=
  let (t1, w1) := advance (Arrived op) w in
  let (t2, w2) := advance t1 w1 in
  advance t2 w2.

End WithRemote.

(** The promise a suspended handler holds, if it holds one. *)
Definition held (t : Task) : option Promise :=
  match t with
  | AwaitingClient _ p => Some p
  | _ => None
  end.

(** What a handler has sent so far: nothing while it is suspended. *)
Definition sent_by (t : Task) : list Response :=
  match t with
  | Finished rs => rs
  | _ => []
  end.

Definition returned (t : Task) : bool :=
  match t with
  | Finished _ => true
  | _ => false
  end.

(** The three answers of the handlers: success, failure of the remote
    part, failed validation. *)
Definition shaped (r : Response) : Prop :=
  (status r = 200 /\ opt_get (body r) "ok" = JBool true)
  \/ (status r = 500 /\ opt_get (body r) "ok" = JBool false)
  \/ (status r = 400 /\ opt_get (body r) "ok" = JUndefined).

(** A handler that has returned has sent one answer, of one of these. *)
Definition answers_well (t : Task) : Prop :=
  match t with
  | Finished rs => exists r, rs = [r] /\ shaped r
  | _ => True
  end.

(** Every suspended handler holds the promise of the first constructor
    call. *)
Definition holds_first (env : Remote) (pool : list Task) : Prop :=
  Forall (fun t => forall p, held t = Some p -> p = first_promise env) pool.

End Loop.


(** ** The view's events *)

Module Session.
Import Js Ui.

(** What the rendered page lets the user do. *)
Inductive Action : Type :=
| Type_owner (v : string)
| Type_repo (v : string)
| Type_question (v : string)
| Click_refresh
| Click_topic (i : nat)
| Click_ask.

(** [disabled={!canQuery || loading}] of the two buttons. *)
Definition button_disabled (s : State) : bool := negb (can_query s) || loading s.

(** The handler an event runs, up to its [await fetch]: the inputs call
    the setters, Refresh calls [setOwner((o) => o)], the i-th topic button
    calls [loadTopic] on the i-th entry of [structure], Ask calls [ask]; a
    disabled button does nothing. *)
Definition start (a : Action) (s : State) : State * option Fetch :=
  match a with
  | Type_owner v => setOwner v s
  | Type_repo v => setRepo v s
  | Type_question v => (setQuestion v s, None)
  | Click_refresh =>
      if button_disabled s then (s, None) else setOwner (owner s) s
  | Click_topic i =>
      match nth_error (structure s) i with
      | Some topic => loadTopic_start topic s
      | None => (s, None)
      end
  | Click_ask => if button_disabled s then (s, None) else ask_start s
  end.

(** The rest of that handler, once its fetch has settled. *)
Definition finish (a : Action) (r : FetchResult) (s : State) : State :=
  match a with
  | Type_owner _ | Type_repo _ | Click_refresh => effect_finish r s
  | Click_topic _ => loadTopic_finish r s
  | Click_ask => ask_finish r s
  | Type_question _ => s
  end.

(** The event's handler awaits a fetch when it gets that far. *)
Definition fetches (a : Action) : bool :=
  match a with
  | Type_question _ => false
  | _ => true
  end.

(** The text of the [Error] each handler throws on an envelope that is not
    [ok] and names no [error]. *)
Definition fallback (a : Action) : string :=
  match a with
  | Click_topic _ => "Failed to load contents"
  | Click_ask => "ask_question failed"
  | _ => "Failed to load structure"
  end.

(** Where each handler puts the texts it extracted. *)
Definition show (a : Action) (items : list JsVal) (s : State) : State :=
  match a with
  | Click_topic _ => setDoc (join blank_line items) s
  | Click_ask => setAnswer (join blank_line items) s
  | Type_question _ => s
  | _ => setStructure items s
  end.

(** The [try] block of a handler from its [await res.json()] on: the
    extracted texts, or the message of what was thrown. *)
Definition verdict (fb : string) (r : FetchResult) : Exc string (list JsVal) :=
  bind (await_json r) (fun json =>
  bind (check_ok json fb) (fun _ =>
  text_items json)).

(** An event whose fetch, if it issues one, settles as [r] before the next
    event. *)
Definition settle (a : Action) (r : FetchResult) (s : State) : State * list Fetch :=
  match start a s with
  | (s1, Some f) => (finish a r s1, [f])
  | (s1, None) => (s1, [])
  end.

Fixpoint play (events : list (Action * FetchResult)) (s : State)
  : State * list Fetch :=
  match events with
  | [] => (s, [])
  | (a, r) :: rest =>
      let (s1, fs1) := settle a r s in
      let (s2, fs2) := play rest s1 in
      (s2, (fs1 ++ fs2)%list)
  end.

(** The page after its first render and the settling of the first fetch. *)
Definition mounted (r : FetchResult) : State := effect_finish r (fst mount).

(** A field of the request, in the query or in the JSON body. *)
Definition field (k : string) (f : Fetch) : JsVal :=
  match f with
  | FetchGet _ params => lookup k (map (fun kv => (fst kv, JStr (snd kv))) params)
  | FetchPost _ json => opt_get json k
  end.

(** The request names an owner and a repository, neither of them blank. *)
Definition names_repository (f : Fetch) : bool :=
  match field "owner" f, field "repo" f with
  | JStr o, JStr r => negb (blank o) && negb (blank r)
  | _, _ => false
  end.

(** Between events nothing is loading, and topics are listed only while
    the guard holds. *)
Definition quiet (s : State) : Prop :=
  loading s = false /\ (can_query s = false -> structure s = []).

End Session.


(** * Properties *)

Import Js.

(** ** The definitions at work *)

Example trim_both_ends : trim "  facebook " = "facebook".
Proof. reflexivity. Qed.

Example trim_keeps_inner_space : trim " a b " = "a b".
Proof. reflexivity. Qed.

Example trim_tab_and_newline :
  trim (String "009" (String "010" "react")) = "react".
Proof. reflexivity. Qed.

Example toString_array :
  toString (JArr [JNum 1; JNull; JStr "a"; JArr [JBool true; JNum (-2)]])
  = "1,,a,true,-2".
Proof. reflexivity. Qed.

Example join_skips_null :
  join ", " [JStr "a"; JUndefined; JNum 7] = "a, , 7".
Proof. reflexivity. Qed.

Example first_request_connects_and_invokes :
  Server.op_run
    (Server.steady 5 (Server.Resolved (JObj [("content", JArr [Ui.text_block "Overview"])])))
    (Server.OpStructure [("owner", JStr "facebook"); ("repo", JStr "react")])
    Server.initial
  = (Server.Routed
       [{| Server.status := 200;
           Server.body := JObj [("ok", JBool true);
                                ("data", JArr [Ui.text_block "Overview"])] |}]
       None,
     {| Server.mcpClientPromise :=
          Some {| Server.prom_id := 0; Server.prom_outcome := Server.Resolved 5 |};
        Server.trace :=
          [Server.EvCreate Server.client_config;
           Server.EvInvoke 5 (Server.structure_call (JStr "facebook") (JStr "react"))] |}).
Proof. reflexivity. Qed.

Example failed_connection_is_caught :
  fst (Server.op_run
         {| Server.connect := fun _ => Server.Rejected (mkError "ECONNREFUSED");
            Server.invoke := fun _ _ _ => Server.Resolved JNull |}
         (Server.OpStructure [("owner", JStr "facebook"); ("repo", JStr "react")])
         Server.initial)
  = Server.Routed
      [{| Server.status := 500;
          Server.body := JObj [("ok", JBool false); ("error", JStr "ECONNREFUSED")] |}]
      None.
Proof. reflexivity. Qed.

Example ask_without_body_is_caught :
  fst (Server.op_run (Server.steady 0 (Server.Resolved JNull))
         (Server.OpAsk JUndefined) Server.initial)
  = Server.Routed
      [{| Server.status := 500;
          Server.body :=
            JObj [("ok", JBool false);
                  ("error",
                   JStr "Cannot destructure property 'owner' of 'req.body' as it is undefined.")] |}]
      None.
Proof. reflexivity. Qed.

Example mount_requests_structure :
  snd Ui.mount
  = Some (Ui.FetchGet "/api/structure" [("owner", "facebook"); ("repo", "react")]).
Proof. reflexivity. Qed.

Example failure_envelope_is_shown (s : Ui.State) :
  Ui.error (Ui.effect_finish
              (Ui.Body (JObj [("ok", JBool false); ("error", JStr "boom")])) s)
  = "boom".
Proof. reflexivity. Qed.

Example refresh_button_is_inert (s : Ui.State) :
  Ui.setOwner (Ui.owner s) s = (s, None).
Proof. unfold Ui.setOwner. rewrite String.eqb_refl. reflexivity. Qed.

(** ** The proxy's handlers, case by case *)

Section ProxyCases.
Variable env : Server.Remote.

Lemma getMcpClient_run (c : Server.Ctx) :
  Server.getMcpClient env c
  = (Ok (Server.client_promise env (Server.world c)),
     {| Server.world := Server.connected env (Server.world c);
        Server.sent := Server.sent c |}).
Proof.
  destruct c as [[p t] s].
  unfold Server.getMcpClient, Server.client_promise, Server.connected.
  destruct p; reflexivity.
Qed.

Lemma creations_emit (e : Server.Event) (w : Server.World) :
  Server.creations (Server.emit e w)
  = Server.creations w + (if Server.is_create e then 1 else 0).
Proof.
  unfold Server.creations, Server.emit; simpl.
  rewrite filter_app, length_app; simpl.
  destruct (Server.is_create e); reflexivity.
Qed.

Lemma invocations_emit (e : Server.Event) (w : Server.World) :
  Server.invocations (Server.emit e w)
  = Server.invocations w + (if Server.is_invoke e then 1 else 0).
Proof.
  unfold Server.invocations, Server.emit; simpl.
  rewrite filter_app, length_app; simpl.
  destruct (Server.is_invoke e); reflexivity.
Qed.

Lemma invocations_connected (w : Server.World) :
  Server.invocations (Server.connected env w) = Server.invocations w.
Proof.
  unfold Server.connected, Server.invocations.
  destruct (Server.mcpClientPromise w); simpl; [reflexivity|].
  rewrite filter_app, length_app; simpl; lia.
Qed.

Lemma remote_part_run (label : string) (call : Server.ToolCall) (w : Server.World) :
  Server.run_handler (Server.remote_part env label call) w
  = Server.after_remote env label call w.
Proof.
  unfold Server.run_handler, Server.remote_part, Server.try_catchM, Server.bindM,
    Server.after_remote.
  rewrite getMcpClient_run; simpl.
  destruct (Server.prom_outcome (Server.client_promise env w)) as [c|err]; simpl.
  - unfold Server.tool_invoke; simpl.
    rewrite invocations_connected.
    destruct (Server.invoke env (Server.invocations w) c call) as [result|err];
      reflexivity.
  - reflexivity.
Qed.

(** [GET /api/structure]: the two branches of the validation. *)
Lemma structure_handler_run (req : Server.Request) (w : Server.World) :
  Server.run_handler (Server.structure_handler env req) w
  = let q := Server.req_query req in
    if truthy (lookup "owner" q) && truthy (lookup "repo" q)
    then Server.after_remote env "structure error"
           (Server.structure_call (lookup "owner" q) (lookup "repo" q)) w
    else (Server.Routed [Server.bad_request "owner and repo are required"] None, w).
Proof.
  cbv zeta. rewrite <- remote_part_run.
  unfold Server.structure_handler; simpl.
  destruct (truthy (lookup "owner" (Server.req_query req))); simpl; [|reflexivity].
  destruct (truthy (lookup "repo" (Server.req_query req))); simpl; reflexivity.
Qed.

Lemma structure_run (q : list (string * JsVal)) (w : Server.World) :
  Server.app env Server.GET (Server.structure_request q) w
  = if truthy (lookup "owner" q) && truthy (lookup "repo" q)
    then Server.after_remote env "structure error"
           (Server.structure_call (lookup "owner" q) (lookup "repo" q)) w
    else (Server.Routed [Server.bad_request "owner and repo are required"] None, w).
Proof.
  unfold Server.app, Server.structure_request; simpl.
  rewrite structure_handler_run. reflexivity.
Qed.

(** [POST /api/ask]: a body that cannot be destructured lands in the
    [catch]; otherwise the two branches of the validation. *)
Lemma ask_handler_run (req : Server.Request) (w : Server.World) :
  Server.run_handler (Server.ask_handler env req) w
  = let b := Server.req_body req in
    if nullish b
    then (Server.Routed [Server.server_error (Server.destructure_error "req.body" "owner" b)] None,
          Server.emit (Server.EvLog "ask error"
                         (Server.destructure_error "req.body" "owner" b)) w)
    else if truthy (opt_get b "owner") && truthy (opt_get b "repo")
            && truthy (opt_get b "question")
    then Server.after_remote env "ask error"
           (Server.ask_call (opt_get b "owner") (opt_get b "repo")
                            (opt_get b "question")) w
    else (Server.Routed [Server.bad_request "owner, repo, question are required"] None, w).
Proof.
  cbv zeta. rewrite <- remote_part_run.
  unfold Server.ask_handler, Server.destructurable; simpl.
  destruct (nullish (Server.req_body req)); [reflexivity|].
  unfold Server.run_handler, Server.try_catchM, Server.bindM at 1; simpl.
  destruct (truthy (opt_get (Server.req_body req) "owner")); simpl; [|reflexivity].
  destruct (truthy (opt_get (Server.req_body req) "repo")); simpl; [|reflexivity].
  destruct (truthy (opt_get (Server.req_body req) "question")); simpl; reflexivity.
Qed.

Lemma ask_run (b : JsVal) (w : Server.World) :
  nullish b = false ->
  Server.app env Server.POST (Server.ask_request b) w
  = if truthy (opt_get b "owner") && truthy (opt_get b "repo")
       && truthy (opt_get b "question")
    then Server.after_remote env "ask error"
           (Server.ask_call (opt_get b "owner") (opt_get b "repo")
                            (opt_get b "question")) w
    else (Server.Routed [Server.bad_request "owner, repo, question are required"] None, w).
Proof.
  intros Hb.
  unfold Server.app, Server.ask_request; simpl.
  rewrite ask_handler_run; simpl. rewrite Hb. reflexivity.
Qed.

End ProxyCases.

Section Operations.
Variable env : Server.Remote.

Lemma op_valid_parsed (op : Server.Operation) :
  Server.op_valid op = true -> Server.op_parsed op = true.
Proof.
  destruct op as [q|b]; simpl; [reflexivity|].
  destruct b; simpl; intros H; try reflexivity; discriminate H.
Qed.

Lemma op_run_valid (op : Server.Operation) (w : Server.World) :
  Server.op_valid op = true ->
  Server.op_run env op w
  = Server.after_remote env (Server.op_label op) (Server.op_call op) w.
Proof.
  intros Hv. pose proof (op_valid_parsed op Hv) as Hp.
  destruct op as [q|b]; unfold Server.op_run;
    cbn [Server.op_valid Server.op_parsed Server.op_label Server.op_call
         Server.op_required] in *.
  - rewrite structure_run, Hv. reflexivity.
  - rewrite ask_run by (destruct (nullish b); [discriminate Hp | reflexivity]).
    rewrite Hv. reflexivity.
Qed.

Lemma op_run_invalid (op : Server.Operation) (w : Server.World) :
  Server.op_parsed op = true ->
  Server.op_valid op = false ->
  Server.op_run env op w
  = (Server.Routed [Server.bad_request (Server.op_required op)] None, w).
Proof.
  intros Hp Hv.
  destruct op as [q|b]; unfold Server.op_run;
    cbn [Server.op_valid Server.op_parsed Server.op_label Server.op_call
         Server.op_required] in *.
  - rewrite structure_run, Hv. reflexivity.
  - rewrite ask_run by (destruct (nullish b); [discriminate Hp | reflexivity]).
    rewrite Hv. reflexivity.
Qed.

Lemma after_remote_settled (label : string) (call : Server.ToolCall)
  (w : Server.World) (c : Server.Client) :
  Server.prom_outcome (Server.client_promise env w) = Server.Resolved c ->
  Server.after_remote env label call w
  = let w2 := Server.emit (Server.EvInvoke c call) (Server.connected env w) in
    match Server.invoke env (Server.invocations w) c call with
    | Server.Resolved result => (Server.Routed [Server.success result] None, w2)
    | Server.Rejected err =>
        (Server.Routed [Server.server_error err] None,
         Server.emit (Server.EvLog label err) w2)
    end.
Proof.
  intros Hc. unfold Server.after_remote. rewrite Hc. reflexivity.
Qed.

End Operations.

(** ** Routing *)

(** C1. The claim asks for a GET operation at /api/contents that answers
    with an envelope.  The route table of [app] holds /api/structure and
    /api/ask only: a GET of /api/contents, whatever its query and body and
    in particular the one the view's [loadTopic] sends, reaches no handler,
    and nothing is asked of the remote side. *)
Theorem contents_route_not_registered
  (env : Server.Remote) (q : list (string * JsVal)) (b : JsVal)
  (w : Server.World) (topic : JsVal) (s : Ui.State) :
  Server.app env Server.GET
    {| Server.req_path := "/api/contents"; Server.req_query := q;
       Server.req_body := b |} w
  = (Server.NoRoute, w)
  /\ Wire.to_request (Ui.contents_fetch topic s)
     = (Server.GET,
        {| Server.req_path := "/api/contents";
           Server.req_query := [("owner", JStr (Ui.owner s));
                                ("repo", JStr (Ui.repo s));
                                ("topic", JStr (toString topic))];
           Server.req_body := JObj [] |})
  /\ Server.app env (fst (Wire.to_request (Ui.contents_fetch topic s)))
       (snd (Wire.to_request (Ui.contents_fetch topic s))) w
     = (Server.NoRoute, w).
Proof.
  repeat split; reflexivity.
Qed.

(** ** Validation *)

(** C2. The claim asks for the body [{ok:false, error}] with status 400
    when a required input is missing.  At a structure request without
    owner and at an ask request without question the status is 400, and
    the body is [{error}] alone: reading [ok] from it gives [undefined],
    not [false], and it is the body of no failure envelope. *)
Theorem validation_body_has_no_ok (env : Server.Remote) (w : Server.World) :
  Server.op_run env (Server.OpStructure [("repo", JStr "react")]) w
  = (Server.Routed
       [{| Server.status := 400;
           Server.body := JObj [("error", JStr "owner and repo are required")] |}]
       None, w)
  /\ Server.op_run env
       (Server.OpAsk (JObj [("owner", JStr "facebook"); ("repo", JStr "react")])) w
     = (Server.Routed
          [{| Server.status := 400;
              Server.body :=
                JObj [("error", JStr "owner, repo, question are required")] |}]
          None, w)
  /\ (forall msg, opt_get (Server.body (Server.bad_request msg)) "ok" = JUndefined)
  /\ (forall msg err,
         Server.body (Server.bad_request msg) <> Server.failure_envelope err).
Proof.
  split; [|split; [|split]].
  - apply (op_run_invalid env (Server.OpStructure [("repo", JStr "react")]));
      reflexivity.
  - apply (op_run_invalid env
             (Server.OpAsk (JObj [("owner", JStr "facebook"); ("repo", JStr "react")])));
      reflexivity.
  - reflexivity.
  - intros msg err H. discriminate H.
Qed.




(** ** What the remote side gives back *)

(** C3, as stated, fails: a structure request whose invocation resolves
    with the object [{}], which has no [content], is answered with status
    200 and [{ok:true, data:[]}], and with no failure envelope. *)
Lemma malformed_result_counterexample :
  opt_get (JObj []) "content" = JUndefined
  /\ fst (Server.op_run (Server.steady 0 (Server.Resolved (JObj [])))
            (Server.OpStructure [("owner", JStr "facebook"); ("repo", JStr "react")])
            Server.initial)
     = Server.Routed
         [{| Server.status := 200;
             Server.body := JObj [("ok", JBool true); ("data", JArr [])] |}]
         None
  /\ (forall err,
         fst (Server.op_run (Server.steady 0 (Server.Resolved (JObj [])))
                (Server.OpStructure [("owner", JStr "facebook"); ("repo", JStr "react")])
                Server.initial)
         <> Server.Routed [Server.server_error err] None).
Proof.
  split; [reflexivity|]. split; [reflexivity|].
  intros err H. discriminate H.
Qed.

(** C3, amended. Let the invocation of a valid structure or ask request
    settle.  If it resolves, the proxy answers once with status 200 and
    [{ok:true, data}], whatever the result: [data] is the result's
    [content], and the empty array when that [content] is [undefined] or
    [null] (the result itself may be [undefined] or [null]).  The answer is
    [{ok:false, error}] with status 500 if and only if the invocation
    throws. *)
Theorem absent_content_is_empty_success
  (env : Server.Remote) (op : Server.Operation) (w : Server.World)
  (o : Server.Outcome JsVal) :
  Server.op_valid op = true ->
  Server.invocation_settles env op w o ->
  exists r,
    fst (Server.op_run env op w) = Server.Routed [r] None
    /\ (forall result,
          o = Server.Resolved result ->
          Server.status r = 200
          /\ Server.body r
             = JObj [("ok", JBool true);
                     ("data", if nullish (opt_get result "content")
                              then JArr []
                              else opt_get result "content")])
    /\ (Server.status r = 500 <-> exists err, o = Server.Rejected err)
    /\ (opt_get (Server.body r) "ok" = JBool false
        <-> exists err, o = Server.Rejected err).
Proof.
  intros Hv [c [Hc Hi]].
  rewrite (op_run_valid env op w Hv), (after_remote_settled env _ _ w c Hc).
  cbv zeta. rewrite Hi.
  destruct o as [result|err]; simpl.
  - exists (Server.success result). split; [reflexivity|]. split; [|split].
    + intros result' H. injection H as <-. split; reflexivity.
    + simpl. split; [discriminate | intros [err H]; discriminate H].
    + simpl. split; [discriminate | intros [err H]; discriminate H].
  - exists (Server.server_error err). split; [reflexivity|]. split; [|split].
    + intros result H. discriminate H.
    + split; [intros _; exists err; reflexivity | reflexivity].
    + split; [intros _; exists err; reflexivity | reflexivity].
Qed.

(** C3, amended, at an ask request whose result carries [isError] only. *)
Lemma absent_content_is_empty_success_witness :
  exists r,
    fst (Server.op_run
           (Server.steady 3 (Server.Resolved (JObj [("isError", JBool false)])))
           (Server.OpAsk (JObj [("owner", JStr "facebook"); ("repo", JStr "react");
                                ("question", JStr "why?")]))
           Server.initial)
    = Server.Routed [r] None
    /\ (forall result,
          Server.Resolved (JObj [("isError", JBool false)]) = Server.Resolved result ->
          Server.status r = 200
          /\ Server.body r
             = JObj [("ok", JBool true);
                     ("data", if nullish (opt_get result "content")
                              then JArr []
                              else opt_get result "content")])
    /\ (Server.status r = 500
        <-> exists err,
              Server.Resolved (JObj [("isError", JBool false)]) = Server.Rejected err)
    /\ (opt_get (Server.body r) "ok" = JBool false
        <-> exists err,
              Server.Resolved (JObj [("isError", JBool false)]) = Server.Rejected err).
Proof.
  apply (absent_content_is_empty_success
           (Server.steady 3 (Server.Resolved (JObj [("isError", JBool false)])))
           (Server.OpAsk (JObj [("owner", JStr "facebook"); ("repo", JStr "react");
                                ("question", JStr "why?")]))
           Server.initial (Server.Resolved (JObj [("isError", JBool false)]))).
  - reflexivity.
  - exists 3. split; reflexivity.
Defined.

(** C5, as stated, fails: an invocation that throws an [Error] whose
    message is the empty string is answered with the error text
    ['unknown error'], which is not that message. *)
Lemma empty_message_counterexample :
  opt_get (mkError "") "message" = JStr ""
  /\ fst (Server.op_run (Server.steady 0 (Server.Rejected (mkError "")))
            (Server.OpStructure [("owner", JStr "facebook"); ("repo", JStr "react")])
            Server.initial)
     = Server.Routed
         [{| Server.status := 500;
             Server.body := JObj [("ok", JBool false);
                                  ("error", JStr "unknown error")] |}]
         None
  /\ JStr "unknown error" <> opt_get (mkError "") "message".
Proof.
  split; [reflexivity|]. split; [reflexivity|].
  intros H. discriminate H.
Qed.

(** C5, amended. When the invocation of a valid structure or ask request
    throws [err], the handler logs it and answers exactly once, with status
    500 and [{ok:false, error}], and lets no fault escape; [error] is
    [err]'s message, unchanged, whenever that message is truthy, and the
    text ['unknown error'] otherwise. *)
Theorem remote_throw_reported_once
  (env : Server.Remote) (op : Server.Operation) (w : Server.World) (err : JsVal) :
  Server.op_valid op = true ->
  Server.invocation_settles env op w (Server.Rejected err) ->
  exists r,
    fst (Server.op_run env op w) = Server.Routed [r] None
    /\ Server.status r = 500
    /\ Server.body r
       = JObj [("ok", JBool false);
               ("error", if truthy (opt_get err "message")
                         then opt_get err "message"
                         else JStr "unknown error")]
    /\ In (Server.EvLog (Server.op_label op) err)
          (Server.trace (snd (Server.op_run env op w))).
Proof.
  intros Hv [c [Hc Hi]].
  exists (Server.server_error err).
  rewrite (op_run_valid env op w Hv), (after_remote_settled env _ _ w c Hc).
  cbv zeta. rewrite Hi. simpl.
  repeat split.
  apply in_or_app. right. left. reflexivity.
Qed.

(** C5, amended, at a structure request whose invocation throws
    [Error('socket hang up')]. *)
Lemma remote_throw_reported_once_witness :
  exists r,
    fst (Server.op_run (Server.steady 1 (Server.Rejected (mkError "socket hang up")))
           (Server.OpStructure [("owner", JStr "facebook"); ("repo", JStr "react")])
           Server.initial)
    = Server.Routed [r] None
    /\ Server.status r = 500
    /\ Server.body r
       = JObj [("ok", JBool false);
               ("error", if truthy (opt_get (mkError "socket hang up") "message")
                         then opt_get (mkError "socket hang up") "message"
                         else JStr "unknown error")]
    /\ In (Server.EvLog "structure error" (mkError "socket hang up"))
          (Server.trace
             (snd (Server.op_run
                     (Server.steady 1 (Server.Rejected (mkError "socket hang up")))
                     (Server.OpStructure [("owner", JStr "facebook");
                                          ("repo", JStr "react")])
                     Server.initial))).
Proof.
  apply (remote_throw_reported_once
           (Server.steady 1 (Server.Rejected (mkError "socket hang up")))
           (Server.OpStructure [("owner", JStr "facebook"); ("repo", JStr "react")])
           Server.initial (mkError "socket hang up")).
  - reflexivity.
  - exists 1. split; reflexivity.
Defined.

(** ** The cached client promise *)

Section Singleton.
Variable env : Server.Remote.

Lemma singleton_initial : Server.singleton env Server.initial.
Proof. reflexivity. Qed.

Lemma singleton_connected (w : Server.World) :
  Server.singleton env w ->
  Server.singleton env (Server.connected env w)
  /\ Server.client_promise env w = Server.first_promise env
  /\ Server.mcpClientPromise (Server.connected env w)
     = Some (Server.first_promise env)
  /\ Server.creations (Server.connected env w) = 1.
Proof.
  unfold Server.singleton, Server.connected, Server.client_promise.
  destruct (Server.mcpClientPromise w) as [p|] eqn:Hp.
  - intros [Hn ->]. rewrite Hp. repeat split; assumption.
  - intros H0. simpl.
    assert (Hc : Server.creations
                   {| Server.mcpClientPromise :=
                        Some {| Server.prom_id := Server.creations w;
                                Server.prom_outcome :=
                                  Server.connect env (Server.creations w) |};
                      Server.trace := Server.trace w
                                        ++ [Server.EvCreate Server.client_config] |}
                 = 1).
    { unfold Server.creations in *; simpl.
      rewrite filter_app, length_app, H0. reflexivity. }
    rewrite Hc, H0. repeat split.
Qed.

Lemma singleton_emit (e : Server.Event) (w : Server.World) :
  Server.is_create e = false ->
  Server.singleton env w -> Server.singleton env (Server.emit e w).
Proof.
  intros He. unfold Server.singleton.
  rewrite creations_emit, He, Nat.add_0_r. simpl. trivial.
Qed.

Lemma singleton_after_remote (label : string) (call : Server.ToolCall)
  (w : Server.World) :
  Server.singleton env w ->
  Server.singleton env (snd (Server.after_remote env label call w)).
Proof.
  intros Hw. destruct (singleton_connected w Hw) as [Hc _].
  unfold Server.after_remote.
  destruct (Server.prom_outcome (Server.client_promise env w)) as [c|err]; simpl.
  - destruct (Server.invoke env (Server.invocations w) c call); simpl;
      repeat apply singleton_emit; auto.
  - apply singleton_emit; auto.
Qed.

Lemma singleton_app (m : Server.Method) (req : Server.Request) (w : Server.World) :
  Server.singleton env w -> Server.singleton env (snd (Server.app env m req w)).
Proof.
  intros Hw. unfold Server.app.
  destruct m.
  - destruct (Server.req_path req =? "/api/structure"); [|exact Hw].
    rewrite structure_handler_run. cbv zeta.
    destruct (truthy _ && truthy _); [|exact Hw].
    apply singleton_after_remote, Hw.
  - destruct (Server.req_path req =? "/api/ask"); [|exact Hw].
    rewrite ask_handler_run. cbv zeta.
    destruct (nullish (Server.req_body req)).
    + apply singleton_emit; [reflexivity | exact Hw].
    + destruct (truthy _ && truthy _ && truthy _); [|exact Hw].
      apply singleton_after_remote, Hw.
Qed.

Lemma singleton_serve (reqs : list (Server.Method * Server.Request))
  (w : Server.World) :
  Server.singleton env w -> Server.singleton env (snd (Server.serve env reqs w)).
Proof.
  revert w. induction reqs as [|[m r] rest IH]; intros w Hw; simpl.
  - exact Hw.
  - pose proof (singleton_app m r w Hw) as H1.
    destruct (Server.app env m r w) as [s w1]; simpl in H1.
    specialize (IH w1 H1).
    destruct (Server.serve env rest w1) as [ss w2]; simpl in *. exact IH.
Qed.

Lemma singleton_creations (w : Server.World) :
  Server.singleton env w ->
  Server.creations w
  = match Server.mcpClientPromise w with None => 0 | Some _ => 1 end.
Proof.
  unfold Server.singleton.
  destruct (Server.mcpClientPromise w); [intros [H _]|intros H]; exact H.
Qed.

(** Once cached, the promise stays: nothing assigns [null] again. *)
Lemma cached_after_remote (label : string) (call : Server.ToolCall)
  (w : Server.World) :
  Server.mcpClientPromise (snd (Server.after_remote env label call w)) <> None.
Proof.
  unfold Server.after_remote, Server.connected.
  destruct (Server.mcpClientPromise w) eqn:E;
    destruct (Server.prom_outcome _); simpl;
    try destruct (Server.invoke _ _ _ _); simpl; try rewrite E; discriminate.
Qed.

Lemma cached_app (m : Server.Method) (req : Server.Request) (w : Server.World) :
  Server.mcpClientPromise w <> None ->
  Server.mcpClientPromise (snd (Server.app env m req w)) <> None.
Proof.
  intros Hw. unfold Server.app. destruct m.
  - destruct (_ =? _); [|exact Hw].
    rewrite structure_handler_run. cbv zeta.
    destruct (truthy _ && truthy _); [apply cached_after_remote | exact Hw].
  - destruct (_ =? _); [|exact Hw].
    rewrite ask_handler_run. cbv zeta.
    destruct (nullish _); [exact Hw|].
    destruct (truthy _ && truthy _ && truthy _);
      [apply cached_after_remote | exact Hw].
Qed.

Lemma cached_serve (reqs : list (Server.Method * Server.Request))
  (w : Server.World) :
  Server.mcpClientPromise w <> None ->
  Server.mcpClientPromise (snd (Server.serve env reqs w)) <> None.
Proof.
  revert w. induction reqs as [|[m r] rest IH]; intros w Hw; simpl; [exact Hw|].
  pose proof (cached_app m r w Hw) as Ha.
  destruct (Server.app env m r w) as [s w1]; simpl in Ha.
  specialize (IH w1 Ha).
  destruct (Server.serve env rest w1); simpl in *. exact IH.
Qed.

Lemma connected_cached (w : Server.World) :
  Server.mcpClientPromise w <> None -> Server.connected env w = w.
Proof.
  unfold Server.connected. destruct (Server.mcpClientPromise w); congruence.
Qed.

End Singleton.

(** C9. The process starts with no client.  After any requests served one
    after the other, the constructor has run once if a promise is cached
    and not at all otherwise; a call of [getMcpClient] then, and a call
    after any further requests, hand out the same promise, the one of the
    first and only constructor call. *)
Theorem client_constructed_at_most_once
  (env : Server.Remote)
  (before after : list (Server.Method * Server.Request))
  (sent1 sent2 : list Server.Response) :
  let w1 := snd (Server.serve env before Server.initial) in
  let call1 := Server.getMcpClient env {| Server.world := w1; Server.sent := sent1 |} in
  let w2 := snd (Server.serve env after (Server.world (snd call1))) in
  let call2 := Server.getMcpClient env {| Server.world := w2; Server.sent := sent2 |} in
  Server.mcpClientPromise Server.initial = None
  /\ Server.creations Server.initial = 0
  /\ Server.creations w1
     = match Server.mcpClientPromise w1 with None => 0 | Some _ => 1 end
  /\ fst call1 = Ok (Server.first_promise env)
  /\ fst call2 = fst call1
  /\ Server.world (snd call2) = w2
  /\ Server.creations w2 = 1
  /\ Server.creations (Server.world (snd call2)) <= 1.
Proof.
  cbv zeta.
  pose proof (singleton_serve env before Server.initial (singleton_initial env)) as H1.
  rewrite !getMcpClient_run. simpl.
  destruct (singleton_connected env _ H1) as [Hc1 [Hp1 [Hm1 Hn1]]].
  pose proof (singleton_serve env after _ Hc1) as H2.
  destruct (singleton_connected env _ H2) as [Hc2 [Hp2 [Hm2 Hn2]]].
  assert (Hw2 : Server.connected env
                  (snd (Server.serve env after
                          (Server.connected env
                             (snd (Server.serve env before Server.initial)))))
                = snd (Server.serve env after
                         (Server.connected env
                            (snd (Server.serve env before Server.initial))))).
  { apply connected_cached, cached_serve. rewrite Hm1. discriminate. }
  repeat split.
  - apply (singleton_creations env _ H1).
  - rewrite Hp1. reflexivity.
  - rewrite Hp1, Hp2. reflexivity.
  - exact Hw2.
  - rewrite <- Hw2. exact Hn2.
  - rewrite Hn2. lia.
Qed.

(** ** Content blocks, from the remote side to the screen *)


Lemma roundtrip_text_block (t : string) :
  json_roundtrip (Ui.text_block t) = Ui.text_block t.
Proof. reflexivity. Qed.


(** Whatever [content] the result carries, unless [undefined] or [null],
    is the envelope's [data]: nothing is filtered on the way. *)
Lemma success_envelope_forwards (content : JsVal) (others : list (string * JsVal)) :
  nullish content = false ->
  Server.success_envelope (JObj (("content", content) :: others))
  = JObj [("ok", JBool true); ("data", content)].
Proof.
  intros Hn. unfold Server.success_envelope, js_coalesce. simpl.
  rewrite Hn. reflexivity.
Qed.





(** ** The view's state *)

Lemma can_query_blank (s : Ui.State) :
  Ui.can_query s = negb (Ui.blank (Ui.owner s)) && negb (Ui.blank (Ui.repo s)).
Proof.
  unfold Ui.can_query, Ui.canQuery, Ui.and_str, Ui.blank.
  destruct (trim (Ui.owner s) =? "") eqn:Ho; simpl.
  - rewrite Ho. reflexivity.
  - reflexivity.
Qed.

(** What the effect does, in terms of the two fields. *)
Lemma effect_start_spec (s : Ui.State) :
  Ui.effect_start s
  = let cleared := Ui.setDoc "" (Ui.setSelectedTopic (JStr "") (Ui.setStructure [] s)) in
    if negb (Ui.blank (Ui.owner s)) && negb (Ui.blank (Ui.repo s))
    then (Ui.setError "" (Ui.setLoading true cleared), Some (Ui.structure_fetch s))
    else (cleared, None).
Proof.
  unfold Ui.effect_start. cbv zeta.
  rewrite can_query_blank. simpl.
  destruct (negb (Ui.blank (Ui.owner s)) && negb (Ui.blank (Ui.repo s)));
    reflexivity.
Qed.

(** C7, as stated, fails: from the first state, setting owner to one space
    changes the field and leaves both fields non-empty, and no request is
    issued. *)
Lemma blank_owner_counterexample :
  Ui.changes (Ui.EditOwner " ") Ui.initial = true
  /\ Ui.owner (fst (Ui.edit (Ui.EditOwner " ") Ui.initial)) = " "
  /\ " " <> ""
  /\ Ui.repo (fst (Ui.edit (Ui.EditOwner " ") Ui.initial)) = "react"
  /\ "react" <> ""
  /\ snd (Ui.edit (Ui.EditOwner " ") Ui.initial) = None.
Proof.
  repeat split; try reflexivity; intros H; discriminate H.
Qed.

(** C7, amended. Every change of the owner or the repository field clears
    the structure, the selected topic and the document text, and then
    issues a structure request for the two fields as they now are if and
    only if neither of them is blank, that is, empty once trimmed. *)
Theorem edit_clears_then_requests_unless_blank (e : Ui.Edit) (s : Ui.State) :
  Ui.changes e s = true ->
  let s' := fst (Ui.edit e s) in
  Ui.owner s' = (match e with Ui.EditOwner v => v | Ui.EditRepo _ => Ui.owner s end)
  /\ Ui.repo s' = (match e with Ui.EditOwner _ => Ui.repo s | Ui.EditRepo v => v end)
  /\ Ui.structure s' = []
  /\ Ui.selectedTopic s' = JStr ""
  /\ Ui.doc s' = ""
  /\ snd (Ui.edit e s)
     = (if negb (Ui.blank (Ui.owner s')) && negb (Ui.blank (Ui.repo s'))
        then Some (Ui.FetchGet "/api/structure"
                     [("owner", Ui.owner s'); ("repo", Ui.repo s')])
        else None)
  /\ (snd (Ui.edit e s) <> None
      <-> trim (Ui.owner s') <> "" /\ trim (Ui.repo s') <> "").
Proof.
  intros Hch. cbv zeta.
  assert (Hx : forall x, (trim x <> "") <-> negb (Ui.blank x) = true).
  { intros x. unfold Ui.blank.
    destruct (String.eqb_spec (trim x) ""); simpl; split; congruence. }
  destruct e as [v|v]; unfold Ui.edit, Ui.setOwner, Ui.setRepo;
    unfold Ui.changes in Hch;
    destruct (v =? _); try discriminate Hch;
    rewrite effect_start_spec; cbv zeta;
    cbn [Ui.with_owner Ui.with_repo Ui.owner Ui.repo].
  - destruct (negb (Ui.blank v)) eqn:Ev;
      destruct (negb (Ui.blank (Ui.repo s))) eqn:Er;
      cbn [andb fst snd Ui.owner Ui.repo Ui.structure Ui.selectedTopic Ui.doc
           Ui.setError Ui.setLoading Ui.setDoc Ui.setSelectedTopic
           Ui.setStructure Ui.structure_fetch Ui.with_owner Ui.with_repo];
      rewrite !Hx, Ev, ?Er; repeat split; intros; try reflexivity;
      first [ congruence | intuition congruence ].
  - destruct (negb (Ui.blank (Ui.owner s))) eqn:Eo;
      destruct (negb (Ui.blank v)) eqn:Ev;
      cbn [andb fst snd Ui.owner Ui.repo Ui.structure Ui.selectedTopic Ui.doc
           Ui.setError Ui.setLoading Ui.setDoc Ui.setSelectedTopic
           Ui.setStructure Ui.structure_fetch Ui.with_owner Ui.with_repo];
      rewrite !Hx, Eo, ?Ev; repeat split; intros; try reflexivity;
      first [ congruence | intuition congruence ].
Qed.

(** C7, amended, at the edit of repo to vue in the first state. *)
Lemma edit_clears_then_requests_unless_blank_witness :
  let s' := fst (Ui.edit (Ui.EditRepo "vue") Ui.initial) in
  Ui.owner s' = Ui.owner Ui.initial
  /\ Ui.repo s' = "vue"
  /\ Ui.structure s' = []
  /\ Ui.selectedTopic s' = JStr ""
  /\ Ui.doc s' = ""
  /\ snd (Ui.edit (Ui.EditRepo "vue") Ui.initial)
     = (if negb (Ui.blank (Ui.owner s')) && negb (Ui.blank (Ui.repo s'))
        then Some (Ui.FetchGet "/api/structure"
                     [("owner", Ui.owner s'); ("repo", Ui.repo s')])
        else None)
  /\ (snd (Ui.edit (Ui.EditRepo "vue") Ui.initial) <> None
      <-> trim (Ui.owner s') <> "" /\ trim (Ui.repo s') <> "").
Proof.
  apply (edit_clears_then_requests_unless_blank (Ui.EditRepo "vue") Ui.initial).
  reflexivity.
Defined.

(** C8. An ask action, from its submission to its completion with any
    outcome of the fetch, leaves the question as it was, and with it
    every cell other than answer, loading and error; the completion alone
    does so from any state, whatever happened in between. *)
Theorem ask_leaves_question (s : Ui.State) (r : Ui.FetchResult) :
  let done := Ui.ask_finish r (fst (Ui.ask_start s)) in
  Ui.question done = Ui.question s
  /\ Ui.owner done = Ui.owner s
  /\ Ui.repo done = Ui.repo s
  /\ Ui.structure done = Ui.structure s
  /\ Ui.selectedTopic done = Ui.selectedTopic s
  /\ Ui.doc done = Ui.doc s
  /\ (forall s1,
         Ui.question (Ui.ask_finish r s1) = Ui.question s1
         /\ Ui.owner (Ui.ask_finish r s1) = Ui.owner s1
         /\ Ui.repo (Ui.ask_finish r s1) = Ui.repo s1
         /\ Ui.structure (Ui.ask_finish r s1) = Ui.structure s1
         /\ Ui.selectedTopic (Ui.ask_finish r s1) = Ui.selectedTopic s1
         /\ Ui.doc (Ui.ask_finish r s1) = Ui.doc s1).
Proof.
  assert (Hfin : forall s1,
             Ui.question (Ui.ask_finish r s1) = Ui.question s1
             /\ Ui.owner (Ui.ask_finish r s1) = Ui.owner s1
             /\ Ui.repo (Ui.ask_finish r s1) = Ui.repo s1
             /\ Ui.structure (Ui.ask_finish r s1) = Ui.structure s1
             /\ Ui.selectedTopic (Ui.ask_finish r s1) = Ui.selectedTopic s1
             /\ Ui.doc (Ui.ask_finish r s1) = Ui.doc s1).
  { intros s1. unfold Ui.ask_finish.
    destruct (bind (Ui.await_json r) _) as [s2|msg] eqn:E; simpl.
    - destruct r as [m|json]; simpl in E; [discriminate E|].
      destruct (Ui.check_ok json "ask_question failed") as [[]|m]; simpl in E;
        [|discriminate E].
      destruct (Ui.text_items json) as [items|m]; simpl in E; [|discriminate E].
      injection E as <-. simpl. repeat split.
    - repeat split. }
  cbv zeta.
  destruct (Hfin (fst (Ui.ask_start s))) as (H1 & H2 & H3 & H4 & H5 & H6).
  rewrite H1, H2, H3, H4, H5, H6.
  unfold Ui.ask_start.
  destruct (negb (Ui.can_query s) || (trim (Ui.question s) =? "")); simpl;
    repeat split; apply Hfin.
Qed.

(** ** Blank identifiers: the proxy's test against the view's guard *)

Lemma nonempty_truthy (v : string) : v <> "" -> truthy (JStr v) = true.
Proof.
  intros Hv. simpl. destruct (String.eqb_spec v ""); [contradiction | reflexivity].
Qed.

Lemma after_remote_answers (env : Server.Remote) (label : string)
  (call : Server.ToolCall) (w : Server.World) :
  exists r,
    fst (Server.after_remote env label call w) = Server.Routed [r] None
    /\ Server.status r <> 400.
Proof.
  unfold Server.after_remote.
  destruct (Server.prom_outcome (Server.client_promise env w)) as [c|err]; simpl.
  - destruct (Server.invoke env (Server.invocations w) c call); simpl;
      eexists; (split; [reflexivity | simpl; discriminate]).
  - eexists; (split; [reflexivity | simpl; discriminate]).
Qed.

Lemma after_remote_invokes (env : Server.Remote) (label : string)
  (call : Server.ToolCall) (w : Server.World) (c : Server.Client) :
  Server.prom_outcome (Server.client_promise env w) = Server.Resolved c ->
  In (Server.EvInvoke c call) (Server.trace (snd (Server.after_remote env label call w)))
  /\ Server.invocations (snd (Server.after_remote env label call w))
     = S (Server.invocations w).
Proof.
  intros Hc. rewrite (after_remote_settled env label call w c Hc). cbv zeta.
  destruct (Server.invoke env (Server.invocations w) c call); simpl; split.
  - apply in_or_app. right. left. reflexivity.
  - rewrite invocations_emit, invocations_connected. simpl. lia.
  - apply in_or_app. left. apply in_or_app. right. left. reflexivity.
  - rewrite !invocations_emit, invocations_connected. simpl. lia.
Qed.

(** C10, as stated, fails: the view does send the proxy a request whose
    owner is white space only.  From the first state, owner is set to one
    space while the first structure fetch is under way; the response then
    lists the topic Overview, and a click on it makes [loadTopic] fetch
    /api/contents with that owner. *)
Lemma blank_owner_sent_counterexample :
  Ui.blank " " = true
  /\ " " <> ""
  /\ snd (Ui.effect_start Ui.initial) = Some (Ui.structure_fetch Ui.initial)
  /\ snd (Ui.setOwner " " (fst (Ui.effect_start Ui.initial))) = None
  /\ snd (Session.start (Session.Click_topic 0)
            (Ui.effect_finish
               (Ui.Body (JObj [("ok", JBool true);
                               ("data", JArr [Ui.text_block "Overview"])]))
               (fst (Ui.setOwner " " (fst (Ui.effect_start Ui.initial))))))
     = Some (Ui.FetchGet "/api/contents"
               [("owner", " "); ("repo", "react"); ("topic", "Overview")]).
Proof.
  split; [reflexivity|]. split; [discriminate|]. repeat split.
Qed.

(** C10, amended. Let owner and repo be non-empty strings of which one is
    blank (white space only).  The proxy's test passes for the structure
    request and, with a non-empty question, for the ask request: neither
    is answered with status 400, and once the client has connected
    [invoke] is called with the two identifiers as they came.  The view's
    handlers behind the guard, which trims, issue no request in a state
    holding these two identifiers: neither the effect nor [ask].
    [loadTopic], which is not behind the guard, does send its request with
    them. *)
Theorem blank_identifiers_pass_proxy_not_view
  (env : Server.Remote) (w : Server.World) (o r q : string) (s : Ui.State) :
  o <> "" -> r <> "" -> q <> "" ->
  Ui.blank o = true \/ Ui.blank r = true ->
  Ui.owner s = o -> Ui.repo s = r ->
  let structure_op := Server.OpStructure [("owner", JStr o); ("repo", JStr r)] in
  let ask_op :=
    Server.OpAsk (JObj [("owner", JStr o); ("repo", JStr r); ("question", JStr q)]) in
  (forall op, op = structure_op \/ op = ask_op ->
     Server.op_valid op = true
     /\ (exists resp,
           fst (Server.op_run env op w) = Server.Routed [resp] None
           /\ Server.status resp <> 400)
     /\ (forall c,
           Server.prom_outcome (Server.client_promise env w) = Server.Resolved c ->
           In (Server.EvInvoke c (Server.op_call op))
              (Server.trace (snd (Server.op_run env op w)))
           /\ Server.invocations (snd (Server.op_run env op w))
              = S (Server.invocations w)))
  /\ Server.op_call structure_op = Server.structure_call (JStr o) (JStr r)
  /\ Server.op_call ask_op = Server.ask_call (JStr o) (JStr r) (JStr q)
  /\ Ui.can_query s = false
  /\ snd (Ui.effect_start s) = None
  /\ snd (Ui.ask_start s) = None
  /\ (forall t, t <> "" ->
        snd (Ui.loadTopic_start (JStr t) s)
        = Some (Ui.FetchGet "/api/contents"
                  [("owner", o); ("repo", r); ("topic", t)])).
Proof.
  intros Ho Hr Hq Hblank Hso Hsr. cbv zeta.
  pose proof (nonempty_truthy o Ho) as To.
  pose proof (nonempty_truthy r Hr) as Tr.
  pose proof (nonempty_truthy q Hq) as Tq.
  assert (Hcq : Ui.can_query s = false).
  { rewrite can_query_blank, Hso, Hsr.
    destruct Hblank as [H|H]; rewrite H; simpl;
      [reflexivity | apply andb_false_r]. }
  split; [|repeat split].
  - intros op Hop.
    assert (Hv : Server.op_valid op = true).
    { destruct Hop as [-> | ->]; cbn [Server.op_valid lookup opt_get];
        cbn [String.eqb Ascii.eqb Bool.eqb]; rewrite To, Tr, ?Tq; reflexivity. }
    split; [exact Hv|].
    rewrite (op_run_valid env op w Hv).
    split; [apply after_remote_answers|].
    intros c Hc. apply after_remote_invokes, Hc.
  - exact Hcq.
  - unfold Ui.effect_start. cbv zeta.
    change (Ui.can_query (Ui.setDoc "" (Ui.setSelectedTopic (JStr "")
                                          (Ui.setStructure [] s))))
      with (Ui.can_query s).
    rewrite Hcq. reflexivity.
  - unfold Ui.ask_start. rewrite Hcq. reflexivity.
  - intros t Ht. unfold Ui.loadTopic_start.
    rewrite (nonempty_truthy t Ht). simpl.
    unfold Ui.contents_fetch. rewrite Hso, Hsr. reflexivity.
Qed.

(** C10, amended, at owner one space, repo react. *)
Lemma blank_identifiers_pass_proxy_not_view_witness :
  let structure_op :=
    Server.OpStructure [("owner", JStr " "); ("repo", JStr "react")] in
  let ask_op :=
    Server.OpAsk (JObj [("owner", JStr " "); ("repo", JStr "react");
                        ("question", JStr "why?")]) in
  (forall op, op = structure_op \/ op = ask_op ->
     Server.op_valid op = true
     /\ (exists resp,
           fst (Server.op_run (Server.steady 0 (Server.Resolved JNull)) op
                  Server.initial)
           = Server.Routed [resp] None
           /\ Server.status resp <> 400)
     /\ (forall c,
           Server.prom_outcome
             (Server.client_promise (Server.steady 0 (Server.Resolved JNull))
                Server.initial)
           = Server.Resolved c ->
           In (Server.EvInvoke c (Server.op_call op))
              (Server.trace
                 (snd (Server.op_run (Server.steady 0 (Server.Resolved JNull)) op
                         Server.initial)))
           /\ Server.invocations
                (snd (Server.op_run (Server.steady 0 (Server.Resolved JNull)) op
                        Server.initial))
              = S (Server.invocations Server.initial)))
  /\ Server.op_call structure_op
     = Server.structure_call (JStr " ") (JStr "react")
  /\ Server.op_call ask_op
     = Server.ask_call (JStr " ") (JStr "react") (JStr "why?")
  /\ Ui.can_query (Ui.with_owner " " Ui.initial) = false
  /\ snd (Ui.effect_start (Ui.with_owner " " Ui.initial)) = None
  /\ snd (Ui.ask_start (Ui.with_owner " " Ui.initial)) = None
  /\ (forall t, t <> "" ->
        snd (Ui.loadTopic_start (JStr t) (Ui.with_owner " " Ui.initial))
        = Some (Ui.FetchGet "/api/contents"
                  [("owner", " "); ("repo", "react"); ("topic", t)])).
Proof.
  apply (blank_identifiers_pass_proxy_not_view
           (Server.steady 0 (Server.Resolved JNull)) Server.initial
           " " "react" "why?" (Ui.with_owner " " Ui.initial)).
  - discriminate.
  - discriminate.
  - discriminate.
  - left. reflexivity.
  - reflexivity.
  - reflexivity.
Defined.

(** * Further properties of the proxy *)

Section ProxyTrace.
Variable env : Server.Remote.

Lemma count_app (f : Server.Event -> bool) (xs ys : list Server.Event) :
  Server.count f (xs ++ ys)%list = Server.count f xs + Server.count f ys.
Proof. unfold Server.count. rewrite filter_app, length_app. reflexivity. Qed.

Lemma connected_trace (w : Server.World) :
  Server.trace (Server.connected env w)
  = (Server.trace w
       ++ match Server.mcpClientPromise w with
          | Some _ => []
          | None => [Server.EvCreate Server.client_config]
          end)%list.
Proof.
  unfold Server.connected.
  destruct (Server.mcpClientPromise w); simpl; [rewrite app_nil_r|]; reflexivity.
Qed.

Lemma after_remote_trace (label : string) (call : Server.ToolCall)
  (w : Server.World) :
  Server.trace (snd (Server.after_remote env label call w))
  = (Server.trace w ++ Server.remote_events env label call w)%list.
Proof.
  unfold Server.after_remote, Server.remote_events.
  destruct (Server.prom_outcome (Server.client_promise env w)) as [c|err]; simpl.
  - destruct (Server.invoke env (Server.invocations w) c call); simpl;
      rewrite connected_trace, <- ?app_assoc; reflexivity.
  - rewrite connected_trace, <- app_assoc. reflexivity.
Qed.

Lemma remote_events_counts (label : string) (call : Server.ToolCall)
  (w : Server.World) :
  Server.count Server.is_create (Server.remote_events env label call w) <= 1
  /\ Server.count Server.is_invoke (Server.remote_events env label call w) <= 1
  /\ Server.count Server.is_log (Server.remote_events env label call w)
     = (if Server.answered_500 (fst (Server.after_remote env label call w)) then 1 else 0).
Proof.
  unfold Server.remote_events, Server.after_remote.
  destruct (Server.mcpClientPromise w);
    destruct (Server.prom_outcome (Server.client_promise env w)) as [c|err];
    try destruct (Server.invoke env (Server.invocations w) c call);
    unfold Server.count; simpl; repeat split; lia.
Qed.

(** What one request appends to the trace. *)
Lemma app_trace (m : Server.Method) (req : Server.Request) (w : Server.World) :
  exists evs,
    Server.trace (snd (Server.app env m req w)) = (Server.trace w ++ evs)%list
    /\ Server.count Server.is_create evs <= 1
    /\ Server.count Server.is_invoke evs <= 1
    /\ Server.count Server.is_log evs
       = (if Server.answered_500 (fst (Server.app env m req w)) then 1 else 0).
Proof.
  assert (Hnil : forall s, Server.answered_500 s = false ->
            Server.trace w = (Server.trace w ++ [])%list
            /\ Server.count Server.is_create [] <= 1
            /\ Server.count Server.is_invoke [] <= 1
            /\ Server.count Server.is_log [] = (if Server.answered_500 s then 1 else 0)).
  { intros s Hs. rewrite Hs, app_nil_r. unfold Server.count.
    repeat split; simpl; lia. }
  unfold Server.app. destruct m.
  - destruct (_ =? _); [|exists []; apply Hnil; reflexivity].
    rewrite structure_handler_run. cbv zeta.
    destruct (truthy _ && truthy _).
    + eexists. split; [apply after_remote_trace | apply remote_events_counts].
    + exists []. apply Hnil. reflexivity.
  - destruct (_ =? _); [|exists []; apply Hnil; reflexivity].
    rewrite ask_handler_run. cbv zeta.
    destruct (nullish _).
    + eexists. split; [reflexivity|]. unfold Server.count. simpl.
      repeat split; lia.
    + destruct (truthy _ && truthy _ && truthy _).
      * eexists. split; [apply after_remote_trace | apply remote_events_counts].
      * exists []. apply Hnil. reflexivity.
Qed.

Lemma after_remote_shape (label : string) (call : Server.ToolCall)
  (w : Server.World) :
  exists r,
    fst (Server.after_remote env label call w) = Server.Routed [r] None
    /\ ((Server.status r = 200 /\ opt_get (Server.body r) "ok" = JBool true)
        \/ (Server.status r = 500 /\ opt_get (Server.body r) "ok" = JBool false)).
Proof.
  unfold Server.after_remote.
  destruct (Server.prom_outcome (Server.client_promise env w)) as [c|err]; simpl.
  - destruct (Server.invoke env (Server.invocations w) c call); simpl;
      eexists; (split; [reflexivity|]); [left | right]; split; reflexivity.
  - eexists; (split; [reflexivity|]); right; split; reflexivity.
Qed.

End ProxyTrace.

(** X2. A request only appends to the trace, and what it appends holds at
    most one constructor call and at most one invocation: nothing is
    retried, whatever the remote side answers. *)
Theorem request_invokes_at_most_once
  (env : Server.Remote) (m : Server.Method) (req : Server.Request)
  (w : Server.World) :
  exists evs,
    Server.trace (snd (Server.app env m req w)) = (Server.trace w ++ evs)%list
    /\ length (filter Server.is_create evs) <= 1
    /\ length (filter Server.is_invoke evs) <= 1
    /\ Server.invocations (snd (Server.app env m req w))
       <= Server.invocations w + 1.
Proof.
  destruct (app_trace env m req w) as [evs (Ht & Hc & Hi & _)].
  exists evs. repeat split; try assumption.
  unfold Server.invocations. rewrite Ht, filter_app, length_app.
  unfold Server.count in Hi. lia.
Qed.

(** X3. [console.error] is called exactly when the answer is a 500: a
    request appends one log entry to the trace if it is answered with
    status 500 and none otherwise. *)
Theorem error_logged_exactly_on_500
  (env : Server.Remote) (m : Server.Method) (req : Server.Request)
  (w : Server.World) :
  length (filter Server.is_log (Server.trace (snd (Server.app env m req w))))
  = length (filter Server.is_log (Server.trace w))
    + match fst (Server.app env m req w) with
      | Server.Routed [r] _ => if (Server.status r =? 500)%nat then 1 else 0
      | _ => 0
      end.
Proof.
  destruct (app_trace env m req w) as [evs (Ht & _ & _ & Hl)].
  rewrite Ht, filter_app, length_app. unfold Server.count in Hl. rewrite Hl.
  unfold Server.answered_500.
  destruct (fst (Server.app env m req w)) as [[|r [|r' rs]] f|]; reflexivity.
Qed.

(** X4. When the invocation of a valid request resolves with a result
    whose [content] is neither [undefined] nor [null], the proxy answers
    200 with that [content] as [data], whatever it is: it is not checked
    to be an array, nor are its blocks inspected. *)
Theorem content_forwarded_verbatim
  (env : Server.Remote) (op : Server.Operation) (w : Server.World)
  (result : JsVal) :
  Server.op_valid op = true ->
  Server.invocation_settles env op w (Server.Resolved result) ->
  nullish (opt_get result "content") = false ->
  fst (Server.op_run env op w)
  = Server.Routed
      [{| Server.status := 200;
          Server.body := JObj [("ok", JBool true);
                               ("data", opt_get result "content")] |}]
      None.
Proof.
  intros Hv [c [Hc Hi]] Hn.
  rewrite (op_run_valid env op w Hv), (after_remote_settled env _ _ w c Hc).
  cbv zeta. rewrite Hi. simpl.
  unfold Server.success, Server.success_envelope, js_coalesce.
  rewrite Hn. reflexivity.
Qed.

(** X4 at a result whose [content] is a string. *)
Lemma content_forwarded_verbatim_witness :
  fst (Server.op_run
         (Server.steady 2 (Server.Resolved (JObj [("content", JStr "plain")])))
         (Server.OpStructure [("owner", JStr "facebook"); ("repo", JStr "react")])
         Server.initial)
  = Server.Routed
      [{| Server.status := 200;
          Server.body :=
            JObj [("ok", JBool true);
                  ("data", opt_get (JObj [("content", JStr "plain")]) "content")] |}]
      None.
Proof.
  apply (content_forwarded_verbatim
           (Server.steady 2 (Server.Resolved (JObj [("content", JStr "plain")])))
           (Server.OpStructure [("owner", JStr "facebook"); ("repo", JStr "react")])
           Server.initial (JObj [("content", JStr "plain")])).
  - reflexivity.
  - exists 2. split; reflexivity.
  - reflexivity.
Defined.

(** ** Many requests, one connection *)

Section ManyRequests.
Variable env : Server.Remote.

Lemma app_op_request (op : Server.Operation) (w : Server.World) :
  Server.app env (fst (Server.op_request op)) (snd (Server.op_request op)) w
  = Server.op_run env op w.
Proof. destruct op; reflexivity. Qed.

Lemma serve_cons_op (op : Server.Operation) (ops : list Server.Operation)
  (w : Server.World) :
  Server.serve env (map Server.op_request (op :: ops)) w
  = (fst (Server.op_run env op w)
       :: fst (Server.serve env (map Server.op_request ops)
                 (snd (Server.op_run env op w))),
     snd (Server.serve env (map Server.op_request ops)
            (snd (Server.op_run env op w)))).
Proof.
  destruct op as [q|b];
    cbn [map Server.op_request Server.serve Server.op_run];
    match goal with
    | |- context [Server.app env ?m ?r w] => destruct (Server.app env m r w) as [s w1]
    end; cbn [fst snd];
    destruct (Server.serve env (map Server.op_request ops) w1); reflexivity.
Qed.

Lemma filter_invoke_connected (w : Server.World) :
  filter Server.is_invoke (Server.trace (Server.connected env w))
  = filter Server.is_invoke (Server.trace w).
Proof.
  rewrite connected_trace, filter_app.
  destruct (Server.mcpClientPromise w); simpl; apply app_nil_r.
Qed.

Lemma after_remote_settled_invokes (label : string) (call : Server.ToolCall)
  (w : Server.World) (c : Server.Client) :
  Server.prom_outcome (Server.client_promise env w) = Server.Resolved c ->
  filter Server.is_invoke (Server.trace (snd (Server.after_remote env label call w)))
  = (filter Server.is_invoke (Server.trace w) ++ [Server.EvInvoke c call])%list.
Proof.
  intros Hc. rewrite (after_remote_settled env label call w c Hc). cbv zeta.
  destruct (Server.invoke env (Server.invocations w) c call); simpl;
    rewrite !filter_app, filter_invoke_connected; simpl;
    rewrite ?app_nil_r; reflexivity.
Qed.

Lemma after_remote_refused (label : string) (call : Server.ToolCall)
  (w : Server.World) (err : JsVal) :
  Server.prom_outcome (Server.client_promise env w) = Server.Rejected err ->
  fst (Server.after_remote env label call w)
  = Server.Routed [Server.server_error err] None
  /\ filter Server.is_invoke (Server.trace (snd (Server.after_remote env label call w)))
     = filter Server.is_invoke (Server.trace w).
Proof.
  intros Hc. unfold Server.after_remote. rewrite Hc. simpl.
  split; [reflexivity|].
  rewrite filter_app, filter_invoke_connected. simpl. apply app_nil_r.
Qed.

Lemma serve_valid_connected (c : Server.Client) (ops : list Server.Operation) :
  Server.connect env 0 = Server.Resolved c ->
  forallb Server.op_valid ops = true ->
  forall w, Server.singleton env w ->
    filter Server.is_invoke
      (Server.trace (snd (Server.serve env (map Server.op_request ops) w)))
    = (filter Server.is_invoke (Server.trace w)
         ++ map (fun op => Server.EvInvoke c (Server.op_call op)) ops)%list.
Proof.
  intros Hc. induction ops as [|op ops IH]; intros Hv w Hw.
  - simpl. symmetry. apply app_nil_r.
  - simpl in Hv. apply andb_prop in Hv. destruct Hv as [Hop Hops].
    rewrite serve_cons_op. cbn [snd].
    pose proof (singleton_connected env w Hw) as (_ & Hp & _).
    assert (Hres : Server.prom_outcome (Server.client_promise env w)
                   = Server.Resolved c) by (rewrite Hp; exact Hc).
    rewrite IH.
    + rewrite (op_run_valid env op w Hop).
      rewrite (after_remote_settled_invokes _ _ w c Hres).
      rewrite <- app_assoc. reflexivity.
    + exact Hops.
    + rewrite (op_run_valid env op w Hop). apply singleton_after_remote, Hw.
Qed.

Lemma serve_valid_refused (err : JsVal) (ops : list Server.Operation) :
  Server.connect env 0 = Server.Rejected err ->
  forallb Server.op_valid ops = true ->
  forall w, Server.singleton env w ->
    fst (Server.serve env (map Server.op_request ops) w)
    = map (fun _ => Server.Routed [Server.server_error err] None) ops
    /\ filter Server.is_invoke
         (Server.trace (snd (Server.serve env (map Server.op_request ops) w)))
       = filter Server.is_invoke (Server.trace w)
    /\ Server.singleton env (snd (Server.serve env (map Server.op_request ops) w)).
Proof.
  intros Hc. induction ops as [|op ops IH]; intros Hv w Hw.
  - simpl. repeat split. exact Hw.
  - simpl in Hv. apply andb_prop in Hv. destruct Hv as [Hop Hops].
    rewrite serve_cons_op. cbn [fst snd].
    pose proof (singleton_connected env w Hw) as (_ & Hp & _).
    assert (Hrej : Server.prom_outcome (Server.client_promise env w)
                   = Server.Rejected err) by (rewrite Hp; exact Hc).
    assert (Hw1 : Server.singleton env (snd (Server.op_run env op w))).
    { rewrite (op_run_valid env op w Hop). apply singleton_after_remote, Hw. }
    destruct (IH Hops _ Hw1) as (H1 & H2 & H3).
    rewrite H1, H2.
    rewrite (op_run_valid env op w Hop).
    destruct (after_remote_refused (Server.op_label op) (Server.op_call op) w err Hrej)
      as [Ha Hb].
    rewrite Ha, Hb. simpl. repeat split.
    rewrite <- (op_run_valid env op w Hop). exact H3.
Qed.

End ManyRequests.

(** X5. Nothing is cached but the connection: when the client connects,
    valid requests served one after the other from the start of the process
    give one invocation each, in the order of the requests and with each
    request's own arguments; a request repeated is invoked again. *)
Theorem every_valid_request_invokes
  (env : Server.Remote) (c : Server.Client) (ops : list Server.Operation) :
  Server.connect env 0 = Server.Resolved c ->
  forallb Server.op_valid ops = true ->
  filter Server.is_invoke
    (Server.trace (snd (Server.serve env (map Server.op_request ops) Server.initial)))
  = map (fun op => Server.EvInvoke c (Server.op_call op)) ops
  /\ Server.invocations (snd (Server.serve env (map Server.op_request ops) Server.initial))
     = length ops.
Proof.
  intros Hc Hv.
  pose proof (serve_valid_connected env c ops Hc Hv Server.initial
                (singleton_initial env)) as H.
  simpl in H. split; [exact H|].
  unfold Server.invocations. rewrite H. apply length_map.
Qed.

(** X5 at the same ask request sent twice. *)
Lemma every_valid_request_invokes_witness :
  filter Server.is_invoke
    (Server.trace
       (snd (Server.serve (Server.steady 4 (Server.Resolved JNull))
               (map Server.op_request
                  [Server.OpAsk (JObj [("owner", JStr "facebook"); ("repo", JStr "react");
                                       ("question", JStr "why?")]);
                   Server.OpAsk (JObj [("owner", JStr "facebook"); ("repo", JStr "react");
                                       ("question", JStr "why?")])])
               Server.initial)))
  = map (fun op => Server.EvInvoke 4 (Server.op_call op))
      [Server.OpAsk (JObj [("owner", JStr "facebook"); ("repo", JStr "react");
                           ("question", JStr "why?")]);
       Server.OpAsk (JObj [("owner", JStr "facebook"); ("repo", JStr "react");
                           ("question", JStr "why?")])]
  /\ Server.invocations
       (snd (Server.serve (Server.steady 4 (Server.Resolved JNull))
               (map Server.op_request
                  [Server.OpAsk (JObj [("owner", JStr "facebook"); ("repo", JStr "react");
                                       ("question", JStr "why?")]);
                   Server.OpAsk (JObj [("owner", JStr "facebook"); ("repo", JStr "react");
                                       ("question", JStr "why?")])])
               Server.initial))
     = length
         [Server.OpAsk (JObj [("owner", JStr "facebook"); ("repo", JStr "react");
                              ("question", JStr "why?")]);
          Server.OpAsk (JObj [("owner", JStr "facebook"); ("repo", JStr "react");
                              ("question", JStr "why?")])].
Proof.
  apply (every_valid_request_invokes
           (Server.steady 4 (Server.Resolved JNull)) 4
           [Server.OpAsk (JObj [("owner", JStr "facebook"); ("repo", JStr "react");
                                ("question", JStr "why?")]);
            Server.OpAsk (JObj [("owner", JStr "facebook"); ("repo", JStr "react");
                                ("question", JStr "why?")])]);
    reflexivity.
Defined.

(** X6. A connection that fails stays failed: when the promise of the one
    constructor call rejects with [err], every valid request served from
    the start of the process is answered 500 with [err]'s envelope, the
    constructor is not called again, and [invoke] is never called. *)
Theorem failed_connection_is_never_retried
  (env : Server.Remote) (err : JsVal) (ops : list Server.Operation) :
  Server.connect env 0 = Server.Rejected err ->
  forallb Server.op_valid ops = true ->
  fst (Server.serve env (map Server.op_request ops) Server.initial)
  = map (fun _ => Server.Routed [Server.server_error err] None) ops
  /\ Server.invocations (snd (Server.serve env (map Server.op_request ops) Server.initial))
     = 0
  /\ Server.creations (snd (Server.serve env (map Server.op_request ops) Server.initial))
     <= 1.
Proof.
  intros Hc Hv.
  destruct (serve_valid_refused env err ops Hc Hv Server.initial
              (singleton_initial env)) as (H1 & H2 & H3).
  split; [exact H1|]. split.
  - unfold Server.invocations. rewrite H2. reflexivity.
  - rewrite (singleton_creations env _ H3).
    destruct (Server.mcpClientPromise _); lia.
Qed.

(** X6 at a connection refused, then two requests. *)
Lemma failed_connection_is_never_retried_witness :
  fst (Server.serve
         {| Server.connect := fun _ => Server.Rejected (mkError "ECONNREFUSED");
            Server.invoke := fun _ _ _ => Server.Resolved JNull |}
         (map Server.op_request
            [Server.OpStructure [("owner", JStr "facebook"); ("repo", JStr "react")];
             Server.OpStructure [("owner", JStr "vuejs"); ("repo", JStr "core")]])
         Server.initial)
  = map (fun _ => Server.Routed [Server.server_error (mkError "ECONNREFUSED")] None)
      [Server.OpStructure [("owner", JStr "facebook"); ("repo", JStr "react")];
       Server.OpStructure [("owner", JStr "vuejs"); ("repo", JStr "core")]]
  /\ Server.invocations
       (snd (Server.serve
               {| Server.connect := fun _ => Server.Rejected (mkError "ECONNREFUSED");
                  Server.invoke := fun _ _ _ => Server.Resolved JNull |}
               (map Server.op_request
                  [Server.OpStructure [("owner", JStr "facebook"); ("repo", JStr "react")];
                   Server.OpStructure [("owner", JStr "vuejs"); ("repo", JStr "core")]])
               Server.initial))
     = 0
  /\ Server.creations
       (snd (Server.serve
               {| Server.connect := fun _ => Server.Rejected (mkError "ECONNREFUSED");
                  Server.invoke := fun _ _ _ => Server.Resolved JNull |}
               (map Server.op_request
                  [Server.OpStructure [("owner", JStr "facebook"); ("repo", JStr "react")];
                   Server.OpStructure [("owner", JStr "vuejs"); ("repo", JStr "core")]])
               Server.initial))
     <= 1.
Proof.
  apply (failed_connection_is_never_retried
           {| Server.connect := fun _ => Server.Rejected (mkError "ECONNREFUSED");
              Server.invoke := fun _ _ _ => Server.Resolved JNull |}
           (mkError "ECONNREFUSED")
           [Server.OpStructure [("owner", JStr "facebook"); ("repo", JStr "react")];
            Server.OpStructure [("owner", JStr "vuejs"); ("repo", JStr "core")]]);
    reflexivity.
Defined.

(** ** Handlers interleaved at their awaits *)

Section Interleaving.
Variable env : Server.Remote.

Lemma advance_singleton (t : Loop.Task) (w : Server.World) :
  Server.singleton env w ->
  (forall p, Loop.held t = Some p -> p = Server.first_promise env) ->
  Server.singleton env (snd (Loop.advance env t w))
  /\ (forall p, Loop.held (fst (Loop.advance env t w)) = Some p ->
        p = Server.first_promise env).
Proof.
  intros Hw Ht.
  destruct t as [op|op p|op o|rs]; simpl.
  - destruct (negb (Server.op_parsed op)); simpl.
    + split; [apply singleton_emit; [reflexivity | exact Hw] | discriminate].
    + destruct (negb (Server.op_valid op)); simpl.
      * split; [exact Hw | discriminate].
      * destruct (singleton_connected env w Hw) as (Hc & Hp & _).
        split; [exact Hc|]. intros p H. injection H as <-. exact Hp.
  - destruct (Server.prom_outcome p); simpl;
      (split; [apply singleton_emit; [reflexivity | exact Hw] | discriminate]).
  - destruct o; simpl;
      (split; [try apply singleton_emit; try reflexivity; exact Hw | discriminate]).
  - split; [exact Hw | discriminate].
Qed.

Lemma advance_nth_singleton (i : nat) (pool : list Loop.Task) (w : Server.World) :
  Server.singleton env w -> Loop.holds_first env pool ->
  Server.singleton env (snd (Loop.advance_nth env i pool w))
  /\ Loop.holds_first env (fst (Loop.advance_nth env i pool w)).
Proof.
  revert i w. induction pool as [|t rest IH]; intros i w Hw Hp; simpl.
  - split; [exact Hw | constructor].
  - inversion Hp as [|t' rest' Ht Hrest]; subst.
    destruct i as [|j].
    + destruct (advance_singleton t w Hw Ht) as [H1 H2].
      destruct (Loop.advance env t w) as [t1 w1]; simpl in *.
      split; [exact H1 | constructor; assumption].
    + destruct (IH j w Hw Hrest) as [H1 H2].
      destruct (Loop.advance_nth env j rest w) as [rest1 w1]; simpl in *.
      split; [exact H1 | constructor; assumption].
Qed.

Lemma run_singleton (schedule : list nat) (pool : list Loop.Task)
  (w : Server.World) :
  Server.singleton env w -> Loop.holds_first env pool ->
  Server.singleton env (snd (Loop.run env schedule pool w))
  /\ Loop.holds_first env (fst (Loop.run env schedule pool w)).
Proof.
  revert pool w. induction schedule as [|i rest IH]; intros pool w Hw Hp; simpl.
  - split; assumption.
  - destruct (advance_nth_singleton i pool w Hw Hp) as [H1 H2].
    destruct (Loop.advance_nth env i pool w) as [pool1 w1]; simpl in *.
    apply IH; assumption.
Qed.

End Interleaving.

(** The stretches of [Loop.advance], run back to back, agree with the
    handlers of [Server]: the same responses, the same world. *)
Lemma stretches_make_the_handler
  (env : Server.Remote) (op : Server.Operation) (w : Server.World) :
  exists rs,
    Server.op_run env op w = (Server.Routed rs None, snd (Loop.straight env op w))
    /\ fst (Loop.straight env op w) = Loop.Finished rs.
Proof.
  unfold Loop.straight.
  destruct (Server.op_parsed op) eqn:Hp.
  - destruct (Server.op_valid op) eqn:Hv.
    + rewrite (op_run_valid env op w Hv).
      unfold Server.after_remote. simpl. rewrite Hp, Hv. simpl.
      destruct (Server.prom_outcome (Server.client_promise env w)) as [c|err]; simpl.
      * rewrite invocations_connected.
        destruct (Server.invoke env (Server.invocations w) c (Server.op_call op));
          simpl; eexists; split; reflexivity.
      * eexists; split; reflexivity.
    + rewrite (op_run_invalid env op w Hp Hv). simpl. rewrite Hp, Hv. simpl.
      eexists; split; reflexivity.
  - destruct op as [q|b]; simpl in Hp; [discriminate Hp|].
    unfold Server.op_run, Server.app, Server.ask_request. simpl.
    rewrite ask_handler_run. cbv zeta.
    cbn [Server.req_body Server.op_parsed].
    destruct (nullish b); [|discriminate Hp]. simpl.
    eexists; split; reflexivity.
Qed.

(** X8. However the handlers of any requests are interleaved at their
    awaits, the client constructor is called at most once, and every
    handler suspended at [await getMcpClient()] holds the promise of that
    one call: the test and the assignment in [getMcpClient] lie in one
    uninterrupted stretch. *)
Theorem interleaved_handlers_share_one_client
  (env : Server.Remote) (ops : list Server.Operation) (schedule : list nat) :
  let after := Loop.run env schedule (map Loop.Arrived ops) Server.initial in
  Server.creations (snd after) <= 1
  /\ Server.creations (snd after)
     = match Server.mcpClientPromise (snd after) with None => 0 | Some _ => 1 end
  /\ Forall (fun t => forall p, Loop.held t = Some p -> p = Server.first_promise env)
       (fst after).
Proof.
  cbv zeta.
  assert (Hp : Loop.holds_first env (map Loop.Arrived ops)).
  { unfold Loop.holds_first. apply Forall_forall. intros t Ht.
    apply in_map_iff in Ht. destruct Ht as [op [<- _]]. discriminate. }
  destruct (run_singleton env schedule _ Server.initial (singleton_initial env) Hp)
    as [H1 H2].
  pose proof (singleton_creations env _ H1) as Hc.
  split; [|split].
  - rewrite Hc. destruct (Server.mcpClientPromise _); lia.
  - exact Hc.
  - exact H2.
Qed.

(** ** One answer per handler *)

Section Answers.
Variable env : Server.Remote.

Lemma advance_answers_well (t : Loop.Task) (w : Server.World) :
  Loop.answers_well t -> Loop.answers_well (fst (Loop.advance env t w)).
Proof.
  intros Ht.
  destruct t as [op|op p|op o|rs]; simpl.
  - destruct (negb (Server.op_parsed op)); simpl.
    + eexists. split; [reflexivity|]. right. left. split; reflexivity.
    + destruct (negb (Server.op_valid op)); simpl; [|exact I].
      eexists. split; [reflexivity|]. right. right. split; reflexivity.
  - destruct (Server.prom_outcome p); simpl; [exact I|].
    eexists. split; [reflexivity|]. right. left. split; reflexivity.
  - destruct o; simpl; eexists; (split; [reflexivity|]);
      [left | right; left]; split; reflexivity.
  - exact Ht.
Qed.

Lemma advance_nth_answers_well (i : nat) (pool : list Loop.Task)
  (w : Server.World) :
  Forall Loop.answers_well pool ->
  Forall Loop.answers_well (fst (Loop.advance_nth env i pool w))
  /\ length (fst (Loop.advance_nth env i pool w)) = length pool.
Proof.
  revert i w. induction pool as [|t rest IH]; intros i w Hp; simpl.
  - split; [constructor | reflexivity].
  - inversion Hp as [|t' rest' Ht Hrest]; subst.
    destruct i as [|j].
    + pose proof (advance_answers_well t w Ht) as H1.
      destruct (Loop.advance env t w) as [t1 w1]; simpl in *.
      split; [constructor; assumption | reflexivity].
    + destruct (IH j w Hrest) as [H1 H2].
      destruct (Loop.advance_nth env j rest w) as [rest1 w1]; simpl in *.
      split; [constructor; assumption | rewrite H2; reflexivity].
Qed.

Lemma run_answers_well (schedule : list nat) (pool : list Loop.Task)
  (w : Server.World) :
  Forall Loop.answers_well pool ->
  Forall Loop.answers_well (fst (Loop.run env schedule pool w))
  /\ length (fst (Loop.run env schedule pool w)) = length pool.
Proof.
  revert pool w. induction schedule as [|i rest IH]; intros pool w Hp; simpl.
  - split; [exact Hp | reflexivity].
  - destruct (advance_nth_answers_well i pool w Hp) as [H1 H2].
    destruct (Loop.advance_nth env i pool w) as [pool1 w1]; simpl in *.
    destruct (IH pool1 w1 H1) as [H3 H4].
    split; [exact H3 | rewrite H4; exact H2].
Qed.

Lemma straight_returns (op : Server.Operation) (w : Server.World) :
  Loop.returned (fst (Loop.straight env op w)) = true.
Proof.
  unfold Loop.straight. simpl.
  destruct (negb (Server.op_parsed op)); simpl; [reflexivity|].
  destruct (negb (Server.op_valid op)); simpl; [reflexivity|].
  destruct (Server.prom_outcome (Server.client_promise env w)); simpl;
    [|reflexivity].
  destruct (Server.invoke env _ _ _); reflexivity.
Qed.

End Answers.

(** X1. No handler answers twice.  However the handlers of any requests
    are interleaved at their awaits, and whether or not the promises they
    wait for ever settle (a handler that is not resumed stays suspended and
    does not return), every handler that has returned has sent exactly one
    response: 200 with [ok] true, 500 with [ok] false, or 400 with no
    [ok].  A handler resumed past both of its awaits has returned. *)
Theorem handlers_answer_at_most_once
  (env : Server.Remote) (ops : list Server.Operation) (schedule : list nat) :
  let pool := fst (Loop.run env schedule (map Loop.Arrived ops) Server.initial) in
  length pool = length ops
  /\ Forall (fun t => Loop.returned t = true ->
                     exists r, Loop.sent_by t = [r] /\ Loop.shaped r) pool
  /\ Forall (fun t => length (Loop.sent_by t) <= 1) pool
  /\ (forall op w, Loop.returned (fst (Loop.straight env op w)) = true).
Proof.
  cbv zeta.
  assert (H0 : Forall Loop.answers_well (map Loop.Arrived ops)).
  { apply Forall_forall. intros t Ht. apply in_map_iff in Ht.
    destruct Ht as [op [<- _]]. exact I. }
  destruct (run_answers_well env schedule _ Server.initial H0) as [Hw Hl].
  rewrite length_map in Hl.
  split; [exact Hl|].
  split; [|split].
  - eapply Forall_impl; [|exact Hw]. intros t Ht Hr.
    destruct t; try discriminate Hr. exact Ht.
  - eapply Forall_impl; [|exact Hw]. intros t Ht.
    destruct t; simpl; try lia.
    destruct Ht as [r [-> _]]. simpl. lia.
  - intros op w. apply straight_returns.
Qed.

(** * Further properties of the view *)

(** ** The guard *)

Lemma all_ws_trimStart (s : string) : all_ws (trimStart s) = all_ws s.
Proof.
  induction s as [|c r IH]; simpl; [reflexivity|].
  destruct (is_ws c) eqn:Hc; simpl; [exact IH | rewrite Hc; reflexivity].
Qed.

Lemma trimEnd_empty (s : string) : (trimEnd s =? "") = all_ws s.
Proof.
  induction s as [|c r IH]; simpl; [reflexivity|].
  rewrite IH.
  destruct (is_ws c); destruct (all_ws r); reflexivity.
Qed.

Lemma blank_all_ws (s : string) : Ui.blank s = all_ws s.
Proof.
  unfold Ui.blank, trim. rewrite trimEnd_empty. apply all_ws_trimStart.
Qed.

Lemma blank_empty : Ui.blank "" = true.
Proof. reflexivity. Qed.

Lemma not_blank_not_empty (v : string) : Ui.blank v = false -> v <> "".
Proof. intros H ->. discriminate H. Qed.

(** X9. The guard [canQuery] is truthy exactly when owner and repo each
    hold a code unit that is not white space; nothing else about the two
    fields is tested. *)
Theorem guard_wants_a_visible_character (s : Ui.State) :
  Ui.can_query s = negb (all_ws (Ui.owner s)) && negb (all_ws (Ui.repo s)).
Proof.
  rewrite can_query_blank, !blank_all_ws. reflexivity.
Qed.

(** ** Completions *)

Lemma finish_verdict (a : Session.Action) (r : Ui.FetchResult) (s : Ui.State) :
  Session.fetches a = true ->
  Session.finish a r s
  = Ui.setLoading false
      (match Session.verdict (Session.fallback a) r with
       | Ok items => Session.show a items s
       | Throw msg => Ui.setError msg s
       end).
Proof.
  intros Ha.
  destruct a; try discriminate Ha;
    unfold Session.finish, Session.verdict, Session.fallback, Session.show,
      Ui.effect_finish, Ui.loadTopic_finish, Ui.ask_finish;
    (destruct r as [msg|json]; simpl; [reflexivity|]);
    match goal with
    | |- context [Ui.check_ok json ?fb] => destruct (Ui.check_ok json fb) as [[]|m]
    end; simpl; try reflexivity;
    destruct (Ui.text_items json); reflexivity.
Qed.

(** What a completion leaves alone. *)
Lemma finish_frame (a : Session.Action) (r : Ui.FetchResult) (s : Ui.State) :
  Ui.loading (Session.finish a r s)
  = (if Session.fetches a then false else Ui.loading s)
  /\ Ui.owner (Session.finish a r s) = Ui.owner s
  /\ Ui.repo (Session.finish a r s) = Ui.repo s
  /\ Ui.question (Session.finish a r s) = Ui.question s
  /\ Ui.selectedTopic (Session.finish a r s) = Ui.selectedTopic s.
Proof.
  destruct (Session.fetches a) eqn:Ha.
  - rewrite (finish_verdict a r s Ha).
    destruct (Session.verdict (Session.fallback a) r) as [items|msg].
    + destruct a; try discriminate Ha; simpl; repeat split.
    + simpl. repeat split.
  - destruct a; try discriminate Ha. simpl. repeat split.
Qed.

(** X10. The completion of a fetching handler, whatever the fetch gave,
    clears the loading flag, leaves owner, repo, question and the selected
    topic alone, and changes either the error or the displayed data
    (structure, document, answer), never both: a failure keeps what was
    displayed, a success keeps the error that was displayed. *)
Theorem completion_sets_data_or_error
  (a : Session.Action) (r : Ui.FetchResult) (s : Ui.State) :
  let s' := Session.finish a r s in
  Ui.loading s' = (if Session.fetches a then false else Ui.loading s)
  /\ Ui.owner s' = Ui.owner s
  /\ Ui.repo s' = Ui.repo s
  /\ Ui.question s' = Ui.question s
  /\ Ui.selectedTopic s' = Ui.selectedTopic s
  /\ (Ui.error s' = Ui.error s
      \/ (Ui.structure s' = Ui.structure s
          /\ Ui.doc s' = Ui.doc s
          /\ Ui.answer s' = Ui.answer s)).
Proof.
  cbv zeta.
  destruct (finish_frame a r s) as (Hl & Ho & Hr & Hq & Ht).
  repeat (split; [assumption|]).
  destruct (Session.fetches a) eqn:Ha.
  - rewrite (finish_verdict a r s Ha).
    destruct (Session.verdict (Session.fallback a) r) as [items|msg].
    + left. destruct a; try discriminate Ha; reflexivity.
    + right. repeat split.
  - left. destruct a; try discriminate Ha. reflexivity.
Qed.

Lemma verdict_failed (fb msg : string) :
  Session.verdict fb (Ui.Failed msg) = Throw msg.
Proof. reflexivity. Qed.

Lemma verdict_not_ok (fb : string) (fields : list (string * JsVal)) :
  truthy (lookup "ok" fields) = false ->
  Session.verdict fb (Ui.Body (JObj fields))
  = Throw (toString (js_or (lookup "error" fields) (JStr fb))).
Proof.
  intros Hok. unfold Session.verdict, Ui.check_ok. simpl. rewrite Hok. reflexivity.
Qed.

(** X11. An envelope whose [ok] is falsy, missing included, and whose
    [error] is a string or is itself falsy, is a failure for every fetching
    handler: the error shown is that string when it is not empty and the
    handler's own fallback text otherwise; the displayed data stays. *)
Theorem envelope_not_ok_shows_its_error
  (a : Session.Action) (fields : list (string * JsVal)) (s : Ui.State) :
  Session.fetches a = true ->
  truthy (lookup "ok" fields) = false ->
  string_or_falsy (lookup "error" fields) = true ->
  Session.finish a (Ui.Body (JObj fields)) s
  = Ui.setLoading false
      (Ui.setError
         (match lookup "error" fields with
          | JStr m => if m =? "" then Session.fallback a else m
          | _ => Session.fallback a
          end) s).
Proof.
  intros Ha Hok He.
  rewrite (finish_verdict a _ s Ha), (verdict_not_ok _ fields Hok).
  unfold js_or.
  destruct (lookup "error" fields) as [| |b|z|m|items|fs]; simpl in He |- *;
    try reflexivity.
  - apply negb_true_iff in He. rewrite He. reflexivity.
  - apply negb_true_iff in He. rewrite He. reflexivity.
  - destruct (m =? ""); reflexivity.
  - discriminate He.
  - discriminate He.
Qed.

(** X11 at the body the proxy's validation sends. *)
Lemma envelope_not_ok_shows_its_error_witness :
  Session.finish Session.Click_ask
    (Ui.Body (JObj [("error", JStr "owner, repo, question are required")]))
    Ui.initial
  = Ui.setLoading false
      (Ui.setError
         (match lookup "error" [("error", JStr "owner, repo, question are required")]
          with
          | JStr m => if m =? "" then Session.fallback Session.Click_ask else m
          | _ => Session.fallback Session.Click_ask
          end) Ui.initial).
Proof.
  apply (envelope_not_ok_shows_its_error Session.Click_ask
           [("error", JStr "owner, repo, question are required")] Ui.initial);
    reflexivity.
Defined.

(** ** Extracting the texts *)

Lemma filter_text_is_filter (blocks : list JsVal) :
  forallb (fun b => negb (nullish b)) blocks = true ->
  Ui.filter_text blocks = Ok (filter Ui.is_text blocks).
Proof.
  induction blocks as [|b rest IH]; intros H; simpl; [reflexivity|].
  simpl in H. apply andb_prop in H. destruct H as [Hb Hrest].
  rewrite (IH Hrest).
  destruct b; try discriminate Hb; simpl; unfold Ui.is_text; simpl;
    reflexivity.
Qed.

Lemma filter_keeps_defined (blocks : list JsVal) :
  forallb (fun b => negb (nullish b)) blocks = true ->
  forallb (fun b => negb (nullish b)) (filter Ui.is_text blocks) = true.
Proof.
  induction blocks as [|b rest IH]; intros H; simpl; [reflexivity|].
  simpl in H. apply andb_prop in H. destruct H as [Hb Hrest].
  destruct (Ui.is_text b); simpl; [rewrite Hb|]; auto.
Qed.

Lemma map_text_is_map (blocks : list JsVal) :
  forallb (fun b => negb (nullish b)) blocks = true ->
  Ui.map_text blocks = Ok (map (fun b => opt_get b "text") blocks).
Proof.
  induction blocks as [|b rest IH]; intros H; simpl; [reflexivity|].
  simpl in H. apply andb_prop in H. destruct H as [Hb Hrest].
  rewrite (IH Hrest).
  destruct b; try discriminate Hb; reflexivity.
Qed.



(** X12. On an envelope that is [ok] and whose [data] is an array of
    blocks none of which is [undefined] or [null], the [filter] and [map]
    of the handlers give the [text] of every block whose [type] is the
    string ['text'], in the order of the array: that list is what each
    handler's [try] block reaches its setter with.  Blocks of another
    type, or without a type, are dropped silently. *)
Theorem texts_of_the_text_blocks
  (fields : list (string * JsVal)) (blocks : list JsVal) :
  truthy (lookup "ok" fields) = true ->
  lookup "data" fields = JArr blocks ->
  forallb (fun b => negb (nullish b)) blocks = true ->
  Ui.text_items (JObj fields)
  = Ok (map (fun b => opt_get b "text") (filter Ui.is_text blocks))
  /\ (forall fb,
        Session.verdict fb (Ui.Body (JObj fields))
        = Ok (map (fun b => opt_get b "text") (filter Ui.is_text blocks)))
  /\ length (filter Ui.is_text blocks) <= length blocks.
Proof.
  intros Hok Hd Hb.
  assert (Ht : Ui.text_items (JObj fields)
               = Ok (map (fun b => opt_get b "text") (filter Ui.is_text blocks))).
  { unfold Ui.text_items. simpl. rewrite Hd. simpl.
    rewrite (filter_text_is_filter blocks Hb). simpl.
    apply map_text_is_map, filter_keeps_defined, Hb. }
  split; [exact Ht|]. split.
  - intros fb. unfold Session.verdict, Ui.check_ok. simpl. rewrite Hok. simpl.
    exact Ht.
  - apply filter_length_le.
Qed.

(** X12 at a text, a resource and a block without type. *)
Lemma texts_of_the_text_blocks_witness :
  Ui.text_items
    (JObj [("ok", JBool true);
           ("data", JArr [Ui.text_block "Overview";
                          JObj [("type", JStr "resource"); ("text", JStr "hidden")];
                          JObj [("text", JStr "untyped")];
                          Ui.text_block "Hooks"])])
  = Ok (map (fun b => opt_get b "text")
          (filter Ui.is_text
             [Ui.text_block "Overview";
              JObj [("type", JStr "resource"); ("text", JStr "hidden")];
              JObj [("text", JStr "untyped")];
              Ui.text_block "Hooks"]))
  /\ (forall fb,
        Session.verdict fb
          (Ui.Body
             (JObj [("ok", JBool true);
                    ("data", JArr [Ui.text_block "Overview";
                                   JObj [("type", JStr "resource");
                                         ("text", JStr "hidden")];
                                   JObj [("text", JStr "untyped")];
                                   Ui.text_block "Hooks"])]))
        = Ok (map (fun b => opt_get b "text")
                (filter Ui.is_text
                   [Ui.text_block "Overview";
                    JObj [("type", JStr "resource"); ("text", JStr "hidden")];
                    JObj [("text", JStr "untyped")];
                    Ui.text_block "Hooks"])))
  /\ length
       (filter Ui.is_text
          [Ui.text_block "Overview";
           JObj [("type", JStr "resource"); ("text", JStr "hidden")];
           JObj [("text", JStr "untyped")];
           Ui.text_block "Hooks"])
     <= length
          [Ui.text_block "Overview";
           JObj [("type", JStr "resource"); ("text", JStr "hidden")];
           JObj [("text", JStr "untyped")];
           Ui.text_block "Hooks"].
Proof.
  apply (texts_of_the_text_blocks
           [("ok", JBool true);
            ("data", JArr [Ui.text_block "Overview";
                           JObj [("type", JStr "resource"); ("text", JStr "hidden")];
                           JObj [("text", JStr "untyped")];
                           Ui.text_block "Hooks"])]
           [Ui.text_block "Overview";
            JObj [("type", JStr "resource"); ("text", JStr "hidden")];
            JObj [("text", JStr "untyped")];
            Ui.text_block "Hooks"]);
    reflexivity.
Defined.

(** X13. An envelope that is [ok] and whose [data] is falsy ([undefined],
    [null], the empty string, zero, [false]) counts as an empty list: the
    structure becomes empty, the document and the answer the empty string,
    and no error is raised. *)
Theorem missing_data_is_empty
  (a : Session.Action) (fields : list (string * JsVal)) (s : Ui.State) :
  Session.fetches a = true ->
  truthy (lookup "ok" fields) = true ->
  truthy (lookup "data" fields) = false ->
  Ui.text_items (JObj fields) = Ok []
  /\ Session.finish a (Ui.Body (JObj fields)) s
     = Ui.setLoading false (Session.show a [] s).
Proof.
  intros Ha Hok Hd.
  assert (Ht : Ui.text_items (JObj fields) = Ok []).
  { unfold Ui.text_items, js_or. simpl. rewrite Hd. reflexivity. }
  split; [exact Ht|].
  rewrite (finish_verdict a _ s Ha).
  unfold Session.verdict, Ui.check_ok. simpl. rewrite Hok. simpl.
  rewrite Ht. reflexivity.
Qed.

(** X13 at an envelope with no data at all. *)
Lemma missing_data_is_empty_witness :
  Ui.text_items (JObj [("ok", JBool true)]) = Ok []
  /\ Session.finish (Session.Click_topic 0) (Ui.Body (JObj [("ok", JBool true)]))
       Ui.initial
     = Ui.setLoading false (Session.show (Session.Click_topic 0) [] Ui.initial).
Proof.
  apply (missing_data_is_empty (Session.Click_topic 0) [("ok", JBool true)]
           Ui.initial); reflexivity.
Defined.

Lemma filter_text_null (blocks : list JsVal) :
  existsb nullish blocks = true ->
  exists msg, Ui.filter_text blocks = Throw msg.
Proof.
  induction blocks as [|b rest IH]; intros H; simpl in H; [discriminate H|].
  simpl. destruct (nullish b) eqn:Hb.
  - destruct b; try discriminate Hb; simpl; eexists; reflexivity.
  - simpl in H. destruct (IH H) as [msg Hm]. rewrite Hm.
    destruct b; try discriminate Hb; simpl; eexists; reflexivity.
Qed.

(** X14. One [null] (or [undefined]) among the blocks fails the whole
    response: the filter's callback throws on it, so the handler shows an
    error and none of the texts, even those of the blocks before it. *)
Theorem null_block_fails_the_response
  (a : Session.Action) (fields : list (string * JsVal)) (blocks : list JsVal)
  (s : Ui.State) :
  Session.fetches a = true ->
  truthy (lookup "ok" fields) = true ->
  lookup "data" fields = JArr blocks ->
  existsb nullish blocks = true ->
  exists msg,
    Session.finish a (Ui.Body (JObj fields)) s
    = Ui.setLoading false (Ui.setError msg s).
Proof.
  intros Ha Hok Hd Hn.
  destruct (filter_text_null blocks Hn) as [msg Hm].
  exists msg. rewrite (finish_verdict a _ s Ha).
  unfold Session.verdict, Ui.check_ok. simpl. rewrite Hok. simpl.
  unfold Ui.text_items. simpl. rewrite Hd. simpl. rewrite Hm. reflexivity.
Qed.

(** X14 at a text block followed by [null]. *)
Lemma null_block_fails_the_response_witness :
  exists msg,
    Session.finish Session.Click_ask
      (Ui.Body (JObj [("ok", JBool true);
                      ("data", JArr [Ui.text_block "first"; JNull])]))
      Ui.initial
    = Ui.setLoading false (Ui.setError msg Ui.initial).
Proof.
  apply (null_block_fails_the_response Session.Click_ask
           [("ok", JBool true); ("data", JArr [Ui.text_block "first"; JNull])]
           [Ui.text_block "first"; JNull] Ui.initial); reflexivity.
Defined.




(** ** From the proxy's answer to the screen *)

Lemma required_truthy (op : Server.Operation) :
  truthy (JStr (Server.op_required op)) = true.
Proof. destruct op; reflexivity. Qed.

(** X16. The answer of the proxy's validation, though it carries no [ok],
    is a failure for the view: handed to any fetching handler it shows the
    proxy's text (which fields are required) as the error and leaves the
    displayed data as it was. *)
Theorem validation_text_reaches_the_screen
  (env : Server.Remote) (op : Server.Operation) (w : Server.World)
  (a : Session.Action) (s : Ui.State) :
  Session.fetches a = true ->
  Server.op_parsed op = true ->
  Server.op_valid op = false ->
  Session.finish a (Wire.to_fetch_result (fst (Server.op_run env op w))) s
  = Ui.setLoading false (Ui.setError (Server.op_required op) s).
Proof.
  intros Ha Hp Hv.
  rewrite (op_run_invalid env op w Hp Hv).
  change (Wire.to_fetch_result
            (fst (Server.Routed [Server.bad_request (Server.op_required op)] None, w)))
    with (Ui.Body (JObj [("error", JStr (Server.op_required op))])).
  rewrite (finish_verdict a _ s Ha), verdict_not_ok by reflexivity.
  unfold js_or. cbn [lookup String.eqb Ascii.eqb Bool.eqb].
  rewrite required_truthy. reflexivity.
Qed.

(** X16 at a structure request without owner, answered to the effect. *)
Lemma validation_text_reaches_the_screen_witness :
  Session.finish (Session.Type_owner "x")
    (Wire.to_fetch_result
       (fst (Server.op_run (Server.steady 0 (Server.Resolved JNull))
               (Server.OpStructure [("repo", JStr "react")]) Server.initial)))
    Ui.initial
  = Ui.setLoading false
      (Ui.setError (Server.op_required (Server.OpStructure [("repo", JStr "react")]))
         Ui.initial).
Proof.
  apply (validation_text_reaches_the_screen
           (Server.steady 0 (Server.Resolved JNull))
           (Server.OpStructure [("repo", JStr "react")]) Server.initial
           (Session.Type_owner "x") Ui.initial); reflexivity.
Defined.

(** X17. When the invocation of a valid request throws a value whose
    message is the string [m], the view, handed the proxy's answer by any
    fetching handler, shows [m] itself as the error, or ['unknown error']
    when [m] is empty, and leaves the displayed data as it was. *)
Theorem remote_message_reaches_the_screen
  (env : Server.Remote) (op : Server.Operation) (w : Server.World)
  (err : JsVal) (m : string) (a : Session.Action) (s : Ui.State) :
  Session.fetches a = true ->
  Server.op_valid op = true ->
  Server.invocation_settles env op w (Server.Rejected err) ->
  opt_get err "message" = JStr m ->
  Session.finish a (Wire.to_fetch_result (fst (Server.op_run env op w))) s
  = Ui.setLoading false
      (Ui.setError (if m =? "" then "unknown error" else m) s).
Proof.
  intros Ha Hv [c [Hc Hi]] Hm.
  rewrite (op_run_valid env op w Hv), (after_remote_settled env _ _ w c Hc).
  cbv zeta. rewrite Hi.
  cbn [fst Wire.to_fetch_result Server.server_error Server.body].
  unfold Server.failure_envelope, js_or. rewrite Hm.
  rewrite (finish_verdict a _ s Ha).
  destruct (m =? "") eqn:Em; cbn [truthy negb]; rewrite Em; cbn [negb];
    cbn [json_roundtrip]; rewrite verdict_not_ok by reflexivity;
    unfold js_or; cbn [lookup String.eqb Ascii.eqb Bool.eqb truthy];
    rewrite ?Em; reflexivity.
Qed.

(** X17 at [Error('socket hang up')] thrown during an ask. *)
Lemma remote_message_reaches_the_screen_witness :
  Session.finish Session.Click_ask
    (Wire.to_fetch_result
       (fst (Server.op_run
               (Server.steady 0 (Server.Rejected (mkError "socket hang up")))
               (Server.OpAsk (JObj [("owner", JStr "facebook"); ("repo", JStr "react");
                                    ("question", JStr "why?")]))
               Server.initial)))
    Ui.initial
  = Ui.setLoading false
      (Ui.setError
         (if "socket hang up" =? "" then "unknown error" else "socket hang up")
         Ui.initial).
Proof.
  apply (remote_message_reaches_the_screen
           (Server.steady 0 (Server.Rejected (mkError "socket hang up")))
           (Server.OpAsk (JObj [("owner", JStr "facebook"); ("repo", JStr "react");
                                ("question", JStr "why?")]))
           Server.initial (mkError "socket hang up") "socket hang up"
           Session.Click_ask Ui.initial).
  - reflexivity.
  - reflexivity.
  - exists 0. split; reflexivity.
  - reflexivity.
Defined.

(** X18. Every request the view's guarded handlers issue, the effect's and
    [ask]'s, passes the proxy's validation, and the tool is called with
    owner and repo exactly as the fields hold them, untrimmed. *)
Theorem guarded_requests_pass_validation (s : Ui.State) (f : Ui.Fetch) :
  snd (Ui.effect_start s) = Some f \/ snd (Ui.ask_start s) = Some f ->
  exists op,
    Wire.to_request f = Server.op_request op
    /\ Server.op_parsed op = true
    /\ Server.op_valid op = true
    /\ opt_get (Server.arguments (Server.op_call op)) "owner" = JStr (Ui.owner s)
    /\ opt_get (Server.arguments (Server.op_call op)) "repo" = JStr (Ui.repo s).
Proof.
  intros [H|H].
  - rewrite effect_start_spec in H. cbv zeta in H.
    destruct (negb (Ui.blank (Ui.owner s))) eqn:Ho; [|discriminate H].
    destruct (negb (Ui.blank (Ui.repo s))) eqn:Hr; [|discriminate H].
    simpl in H. injection H as <-.
    apply negb_true_iff in Ho, Hr.
    exists (Server.OpStructure [("owner", JStr (Ui.owner s)); ("repo", JStr (Ui.repo s))]).
    split; [reflexivity|]. split; [reflexivity|]. split; [|split; reflexivity].
    cbn [Server.op_valid lookup String.eqb Ascii.eqb Bool.eqb].
    rewrite !nonempty_truthy by (apply not_blank_not_empty; assumption).
    reflexivity.
  - unfold Ui.ask_start in H. rewrite can_query_blank in H.
    destruct (negb (Ui.blank (Ui.owner s))) eqn:Ho; [|discriminate H].
    destruct (negb (Ui.blank (Ui.repo s))) eqn:Hr; [|discriminate H].
    simpl in H.
    destruct (trim (Ui.question s) =? "") eqn:Hq; [discriminate H|].
    injection H as <-.
    apply negb_true_iff in Ho, Hr.
    exists (Server.OpAsk (JObj [("owner", JStr (Ui.owner s)); ("repo", JStr (Ui.repo s));
                                ("question", JStr (Ui.question s))])).
    split; [reflexivity|]. split; [reflexivity|]. split; [|split; reflexivity].
    cbn [Server.op_valid opt_get lookup String.eqb Ascii.eqb Bool.eqb].
    rewrite !nonempty_truthy by (apply not_blank_not_empty; assumption).
    reflexivity.
Qed.

(** X18 at the first render's request. *)
Lemma guarded_requests_pass_validation_witness :
  exists op,
    Wire.to_request (Ui.structure_fetch Ui.initial) = Server.op_request op
    /\ Server.op_parsed op = true
    /\ Server.op_valid op = true
    /\ opt_get (Server.arguments (Server.op_call op)) "owner"
       = JStr (Ui.owner Ui.initial)
    /\ opt_get (Server.arguments (Server.op_call op)) "repo"
       = JStr (Ui.repo Ui.initial).
Proof.
  apply (guarded_requests_pass_validation Ui.initial (Ui.structure_fetch Ui.initial)).
  left. reflexivity.
Defined.

(** ** Events *)

Lemma refresh_inert_start (s : Ui.State) :
  Session.start Session.Click_refresh s = (s, None).
Proof.
  unfold Session.start, Ui.setOwner. rewrite String.eqb_refl.
  destruct (Session.button_disabled s); reflexivity.
Qed.

(** X19. The Refresh Structure button does nothing: its handler hands
    [setOwner] the identity, the owner does not change, so the effect does
    not run again; the state is left as it was and no request is issued,
    enabled or not. *)
Theorem refresh_button_does_nothing (s : Ui.State) :
  Session.start Session.Click_refresh s = (s, None)
  /\ (forall r, Session.settle Session.Click_refresh r s = (s, []))
  /\ (forall r events,
        Session.play ((Session.Click_refresh, r) :: events) s
        = Session.play events s).
Proof.
  pose proof (refresh_inert_start s) as H.
  assert (Hs : forall r, Session.settle Session.Click_refresh r s = (s, [])).
  { intros r. unfold Session.settle. rewrite H. reflexivity. }
  split; [exact H|]. split; [exact Hs|].
  intros r events. simpl. rewrite Hs.
  destruct (Session.play events s). reflexivity.
Qed.

Lemma can_query_ext (s1 s2 : Ui.State) :
  Ui.owner s1 = Ui.owner s2 -> Ui.repo s1 = Ui.repo s2 ->
  Ui.can_query s1 = Ui.can_query s2.
Proof. intros Ho Hr. rewrite !can_query_blank, Ho, Hr. reflexivity. Qed.

Lemma finish_quiet (a : Session.Action) (r : Ui.FetchResult) (s : Ui.State) :
  Session.fetches a = true ->
  Ui.can_query s = true ->
  Session.quiet (Session.finish a r s).
Proof.
  intros Ha Hq.
  destruct (finish_frame a r s) as (Hl & Ho & Hr & _).
  rewrite Ha in Hl. split; [exact Hl|].
  rewrite (can_query_ext _ s Ho Hr), Hq. discriminate.
Qed.

Lemma structure_fetch_named (s : Ui.State) :
  Session.names_repository (Ui.structure_fetch s) = Ui.can_query s.
Proof. rewrite can_query_blank. reflexivity. Qed.

Lemma contents_fetch_named (t : JsVal) (s : Ui.State) :
  Session.names_repository (Ui.contents_fetch t s) = Ui.can_query s.
Proof. rewrite can_query_blank. reflexivity. Qed.

Lemma ask_fetch_named (s : Ui.State) :
  Session.names_repository (Ui.ask_fetch s) = Ui.can_query s.
Proof. rewrite can_query_blank. reflexivity. Qed.

Lemma edit_quiet (e : Ui.Edit) (r : Ui.FetchResult) (s : Ui.State) :
  Session.quiet s ->
  match Ui.edit e s with
  | (s1, Some f) =>
      Session.quiet (Ui.effect_finish r s1) /\ Session.names_repository f = true
  | (s1, None) => Session.quiet s1
  end.
Proof.
  intros [Hl Hs].
  assert (He : forall s0,
             Ui.loading s0 = false ->
             match Ui.effect_start s0 with
             | (s1, Some f) =>
                 Session.quiet (Ui.effect_finish r s1)
                 /\ Session.names_repository f = true
             | (s1, None) => Session.quiet s1
             end).
  { intros s0 Hl0. rewrite effect_start_spec. cbv zeta.
    destruct (negb (Ui.blank (Ui.owner s0)) && negb (Ui.blank (Ui.repo s0))) eqn:Hq.
    - split.
      + apply (finish_quiet (Session.Type_owner "") r); [reflexivity|].
        rewrite can_query_blank. exact Hq.
      + rewrite structure_fetch_named, can_query_blank. exact Hq.
    - split; [exact Hl0 | reflexivity]. }
  destruct e as [v|v]; unfold Ui.edit, Ui.setOwner, Ui.setRepo.
  - destruct (v =? Ui.owner s); [split; assumption | apply He; exact Hl].
  - destruct (v =? Ui.repo s); [split; assumption | apply He; exact Hl].
Qed.

Lemma settle_quiet (a : Session.Action) (r : Ui.FetchResult) (s : Ui.State) :
  Session.quiet s ->
  Session.quiet (fst (Session.settle a r s))
  /\ forallb Session.names_repository (snd (Session.settle a r s)) = true.
Proof.
  intros Hq. pose proof Hq as [Hl Hs]. unfold Session.settle.
  destruct a as [v|v|v| |i|].
  - pose proof (edit_quiet (Ui.EditOwner v) r s Hq) as H.
    unfold Ui.edit in H. unfold Session.start, Session.finish.
    destruct (Ui.setOwner v s) as [s1 [f|]]; simpl.
    + destruct H as [H1 H2]. rewrite H2. split; [exact H1 | reflexivity].
    + split; [exact H | reflexivity].
  - pose proof (edit_quiet (Ui.EditRepo v) r s Hq) as H.
    unfold Ui.edit in H. unfold Session.start, Session.finish.
    destruct (Ui.setRepo v s) as [s1 [f|]]; simpl.
    + destruct H as [H1 H2]. rewrite H2. split; [exact H1 | reflexivity].
    + split; [exact H | reflexivity].
  - simpl. split; [|reflexivity]. split; [exact Hl | exact Hs].
  - rewrite (refresh_inert_start s). simpl.
    split; [exact Hq | reflexivity].
  - unfold Session.start.
    destruct (nth_error (Ui.structure s) i) as [t|] eqn:Hn;
      [|simpl; split; [exact Hq | reflexivity]].
    assert (Hcq : Ui.can_query s = true).
    { destruct (Ui.can_query s) eqn:E; [reflexivity|].
      rewrite (Hs eq_refl) in Hn. destruct i; discriminate Hn. }
    unfold Ui.loadTopic_start.
    destruct (negb (truthy t)); simpl; [split; [exact Hq | reflexivity]|].
    rewrite contents_fetch_named, Hcq. split; [|reflexivity].
    apply (finish_quiet (Session.Click_topic i) r); [reflexivity|].
    rewrite <- Hcq. apply can_query_ext; reflexivity.
  - unfold Session.start, Session.button_disabled.
    destruct (Ui.can_query s) eqn:Hcq; simpl;
      [|split; [exact Hq | reflexivity]].
    rewrite Hl. simpl. unfold Ui.ask_start. rewrite Hcq. simpl.
    destruct (trim (Ui.question s) =? ""); simpl; [split; [exact Hq | reflexivity]|].
    rewrite ask_fetch_named, Hcq. split; [|reflexivity].
    apply (finish_quiet Session.Click_ask r); [reflexivity|].
    rewrite <- Hcq. apply can_query_ext; reflexivity.
Qed.

Lemma play_quiet (events : list (Session.Action * Ui.FetchResult)) (s : Ui.State) :
  Session.quiet s ->
  Session.quiet (fst (Session.play events s))
  /\ forallb Session.names_repository (snd (Session.play events s)) = true.
Proof.
  revert s. induction events as [|[a r] rest IH]; intros s Hq; simpl.
  - split; [exact Hq | reflexivity].
  - destruct (settle_quiet a r s Hq) as [H1 H2].
    destruct (Session.settle a r s) as [s1 fs1]; simpl in H1, H2.
    destruct (IH s1 H1) as [H3 H4].
    destruct (Session.play rest s1) as [s2 fs2]; simpl in *.
    split; [exact H3|]. rewrite forallb_app, H2, H4. reflexivity.
Qed.

(** X20. As long as every fetch settles before the next event, whatever it
    settles as: after any sequence of edits, refreshes, topic clicks and
    asks since the first render, nothing is loading, topics are listed
    only while owner and repo are both non-blank, and every request that
    was issued, contents requests included, named a non-blank owner and a
    non-blank repo. *)
Theorem settled_sessions_never_send_blank
  (first : Ui.FetchResult) (events : list (Session.Action * Ui.FetchResult)) :
  let after := Session.play events (Session.mounted first) in
  Ui.loading (fst after) = false
  /\ (Ui.structure (fst after) = [] \/ Ui.can_query (fst after) = true)
  /\ forallb Session.names_repository (snd after) = true
  /\ Session.names_repository (Ui.structure_fetch Ui.initial) = true.
Proof.
  cbv zeta.
  assert (Hm : Session.quiet (Session.mounted first)).
  { apply (finish_quiet (Session.Type_owner "") first); reflexivity. }
  destruct (play_quiet events _ Hm) as [[Hl Hs] Hf].
  split; [exact Hl|]. split; [|split; [exact Hf | reflexivity]].
  destruct (Ui.can_query (fst (Session.play events (Session.mounted first))));
    [right; reflexivity | left; apply Hs; reflexivity].
Qed.

(** X21. A response is applied whatever happened to the fields while it was
    under way.  When owner is changed to a blank value before the pending
    structure fetch settles, the response still fills the topic list; a
    click on any truthy topic of it then sends a contents request whose
    owner is that blank value: [loadTopic] is not behind the guard. *)
Theorem late_structure_lets_blank_owner_out
  (s : Ui.State) (v : string) (json : JsVal) (items : list JsVal)
  (i : nat) (t : JsVal) :
  Ui.can_query s = true ->
  Ui.blank v = true ->
  (v =? Ui.owner s) = false ->
  Session.verdict "Failed to load structure" (Ui.Body json) = Ok items ->
  nth_error items i = Some t ->
  truthy t = true ->
  let pending := Ui.effect_start s in
  let edited := Ui.setOwner v (fst pending) in
  let late := Ui.effect_finish (Ui.Body json) (fst edited) in
  snd pending = Some (Ui.structure_fetch s)
  /\ snd edited = None
  /\ Ui.owner late = v
  /\ Ui.structure late = items
  /\ Ui.can_query late = false
  /\ snd (Session.start (Session.Click_topic i) late)
     = Some (Ui.FetchGet "/api/contents"
               [("owner", v); ("repo", Ui.repo s); ("topic", toString t)])
  /\ Session.names_repository
       (Ui.FetchGet "/api/contents"
          [("owner", v); ("repo", Ui.repo s); ("topic", toString t)])
     = false.
Proof.
  intros Hq Hb Hv Hj Hn Ht. cbv zeta.
  assert (Hp : Ui.effect_start s
               = (Ui.setError "" (Ui.setLoading true
                    (Ui.setDoc "" (Ui.setSelectedTopic (JStr "")
                       (Ui.setStructure [] s)))),
                  Some (Ui.structure_fetch s))).
  { rewrite effect_start_spec. cbv zeta. rewrite <- can_query_blank, Hq. reflexivity. }
  rewrite Hp. cbn [fst snd].
  assert (He : Ui.setOwner v
                 (Ui.setError "" (Ui.setLoading true
                    (Ui.setDoc "" (Ui.setSelectedTopic (JStr "")
                       (Ui.setStructure [] s)))))
               = (Ui.setDoc "" (Ui.setSelectedTopic (JStr "")
                    (Ui.setStructure []
                       (Ui.with_owner v
                          (Ui.setError "" (Ui.setLoading true
                             (Ui.setDoc "" (Ui.setSelectedTopic (JStr "")
                                (Ui.setStructure [] s)))))))),
                  None)).
  { unfold Ui.setOwner. cbn [Ui.owner Ui.setError Ui.setLoading Ui.setDoc
                              Ui.setSelectedTopic Ui.setStructure].
    rewrite Hv. rewrite effect_start_spec. cbv zeta.
    cbn [Ui.owner Ui.with_owner]. rewrite Hb. reflexivity. }
  rewrite He. cbn [fst snd].
  rewrite (finish_verdict (Session.Type_owner v) _ _ eq_refl).
  change (Session.fallback (Session.Type_owner v)) with "Failed to load structure".
  rewrite Hj.
  cbn [Session.show Ui.owner Ui.repo Ui.structure Ui.setLoading Ui.setStructure
       Ui.setDoc Ui.setSelectedTopic Ui.with_owner Ui.setError].
  split; [reflexivity|]. split; [reflexivity|]. split; [reflexivity|].
  split; [reflexivity|]. split.
  - rewrite can_query_blank.
    cbn [Ui.owner Ui.repo Ui.setLoading Ui.setStructure Ui.setDoc
         Ui.setSelectedTopic Ui.with_owner Ui.setError].
    rewrite Hb. reflexivity.
  - split.
    + unfold Session.start.
      cbn [Ui.structure Ui.setLoading Ui.setStructure Ui.setDoc
           Ui.setSelectedTopic Ui.with_owner Ui.setError].
      rewrite Hn. unfold Ui.loadTopic_start. rewrite Ht. reflexivity.
    + unfold Session.names_repository. cbn [Session.field map fst snd lookup
        String.eqb Ascii.eqb Bool.eqb]. rewrite Hb. reflexivity.
Qed.

(** X21 at the first state: owner set to one space while the first fetch
    is under way, which then brings the topic Overview. *)
Lemma late_structure_lets_blank_owner_out_witness :
  let pending := Ui.effect_start Ui.initial in
  let edited := Ui.setOwner " " (fst pending) in
  let late :=
    Ui.effect_finish
      (Ui.Body (JObj [("ok", JBool true); ("data", JArr [Ui.text_block "Overview"])]))
      (fst edited) in
  snd pending = Some (Ui.structure_fetch Ui.initial)
  /\ snd edited = None
  /\ Ui.owner late = " "
  /\ Ui.structure late = [JStr "Overview"]
  /\ Ui.can_query late = false
  /\ snd (Session.start (Session.Click_topic 0) late)
     = Some (Ui.FetchGet "/api/contents"
               [("owner", " "); ("repo", Ui.repo Ui.initial);
                ("topic", toString (JStr "Overview"))])
  /\ Session.names_repository
       (Ui.FetchGet "/api/contents"
          [("owner", " "); ("repo", Ui.repo Ui.initial);
           ("topic", toString (JStr "Overview"))])
     = false.
Proof.
  apply (late_structure_lets_blank_owner_out Ui.initial " "
           (JObj [("ok", JBool true); ("data", JArr [Ui.text_block "Overview"])])
           [JStr "Overview"] 0 (JStr "Overview")); reflexivity.
Defined.
